(** * GoResyBot: a shallow embedding of the booking pipeline

    The development follows the Go sources of the repository:

    - [config/config.go]         admin token checks ([Config]);
    - [store/redis.go], [store/reservations.go]
                                 the scheduled-reservation queue ([Store]);
    - [api/resy/api.go]          the challenge-aware client and [Reserve]
                                 ([Resy]);
    - [main.go]                  [validateAdminToken] and the dispatcher
                                 loop [handleScheduledReservations] ([Main]).

    The Go standard library ([strings], [time], [net/http],
    [encoding/json]) and the Redis server are not part of the repository;
    the modules [GoStrings], [GoTime], [Json], [Http] and [Redis] give the
    part of their behaviour the sources rely on. *)

From Stdlib Require Import ZArith Lia Bool Ascii String List.
From Stdlib Require Import Sorting.Sorted.
From Stdlib Require DecimalString OrderedTypeEx.
From stdpp Require Import base option list strings gmap.

Local Open Scope Z_scope.
Set Warnings "-register-all".

(* ===================================================================== *)
(** * The [strings] package *)
(* ===================================================================== *)

Module GoStrings.

(** [strings.ToLower] on its ASCII path: ['A'..'Z'] are shifted by
    ['a' - 'A'], every other byte is kept.  (For text outside ASCII the
    library applies the Unicode case mapping; labels and filters of the
    booking service are ASCII.) *)
Definition lowerByte (c : ascii) : ascii :=
  let n := nat_of_ascii c in
  if ((65 <=? n)%nat && (n <=? 90)%nat)%bool then ascii_of_nat (n + 32) else c.

Fixpoint ToLower (s : string) : string :=
  match s with
  | EmptyString => EmptyString
  | String c r => String (lowerByte c) (ToLower r)
  end.

(** [strings.HasPrefix s p]. *)
Fixpoint HasPrefix (s p : string) {struct p} : bool :=
  match p, s with
  | EmptyString, _ => true
  | String _ _, EmptyString => false
  | String a p', String b s' => if Ascii.eqb a b then HasPrefix s' p' else false
  end.

(** [strings.TrimPrefix s p]. *)
Fixpoint dropBytes (n : nat) (s : string) : string :=
  match n, s with
  | O, _ => s
  | S _, EmptyString => EmptyString
  | S n', String _ r => dropBytes n' r
  end.

Definition TrimPrefix (s p : string) : string :=
  if HasPrefix s p then dropBytes (String.length p) s else s.

(** [strings.Contains s substr]: [substr] occurs in [s] as a run of
    consecutive bytes. *)
Fixpoint Contains (s substr : string) : bool :=
  if HasPrefix s substr then true
  else match s with
       | EmptyString => false
       | String _ r => Contains r substr
       end.

(** [strings.Split s sep] for a one-byte separator: the pieces between
    the occurrences of [sep], one more than there are occurrences. *)
Fixpoint Split (s : string) (sep : ascii) : list string :=
  match s with
  | EmptyString => [EmptyString]
  | String c r =>
      if Ascii.eqb c sep then EmptyString :: Split r sep
      else match Split r sep with
           | [] => [String c EmptyString]
           | p :: ps => String c p :: ps
           end
  end.

(** [strings.SplitN s sep 2]: cut at the first occurrence of [sep]. *)
Fixpoint SplitN2 (s : string) (sep : ascii) : list string :=
  match s with
  | EmptyString => [EmptyString]
  | String c r =>
      if Ascii.eqb c sep then [EmptyString; r]
      else match SplitN2 r sep with
           | [] => [String c EmptyString]
           | p :: ps => String c p :: ps
           end
  end.

(** [strings.TrimSpace]: leading and trailing white space removed
    (space, [\t], [\n], [\v], [\f], [\r]). *)
Definition isSpace (c : ascii) : bool :=
  let n := nat_of_ascii c in
  ((n =? 32)%nat || ((9 <=? n)%nat && (n <=? 13)%nat))%bool.

Fixpoint trimLeft (s : string) : string :=
  match s with
  | EmptyString => EmptyString
  | String c r => if isSpace c then trimLeft r else s
  end.

Fixpoint trimRight (s : string) : string :=
  match s with
  | EmptyString => EmptyString
  | String c r =>
      match trimRight r with
      | EmptyString => if isSpace c then EmptyString else String c EmptyString
      | r' => String c r'
      end
  end.

Definition TrimSpace (s : string) : string := trimRight (trimLeft s).

End GoStrings.

(* ===================================================================== *)
(** * The [time] package *)
(* ===================================================================== *)

Module GoTime.

(** A [Duration] is a signed 64-bit count of nanoseconds. *)
Definition Duration := Z.
Definition minDuration : Duration := - 2 ^ 63.
Definition maxDuration : Duration := 2 ^ 63 - 1.
Definition Nanosecond : Duration := 1.
Definition Second : Duration := 1000000000.
Definition Minute : Duration := 60 * Second.
Definition Hour : Duration := 60 * Minute.

(** Two's complement negation of a [Duration] ([-d] in Go). *)
Definition negDuration (d : Duration) : Duration :=
  if d =? minDuration then minDuration else - d.

(** A [Location] is a table of zone transitions: before the first
    transition [initialOffset] seconds east of UTC are in force, from
    [when] (Unix seconds) on the [offset] of that entry. *)
Record zoneTrans := { when : Z; offset : Z }.
Record Location := { initialOffset : Z; tx : list zoneTrans }.

Definition UTC : Location := {| initialOffset := 0; tx := [] |}.

Definition alpha : Z := - 2 ^ 63.
Definition omega : Z := 2 ^ 63 - 1.

(** [Location.lookup]: the offset in force at Unix time [sec] and the
    bounds [start, end) of the period it is in force. *)
Fixpoint lookupFrom (off start : Z) (ts : list zoneTrans) (sec : Z) : Z * Z * Z :=
  match ts with
  | [] => (off, start, omega)
  | t :: rest =>
      if sec <? when t then (off, start, when t)
      else lookupFrom (offset t) (when t) rest sec
  end.

Definition lookup (l : Location) (sec : Z) : Z * Z * Z :=
  lookupFrom (initialOffset l) alpha (tx l) sec.

(** A [Time] is an instant (nanoseconds since the Unix epoch) seen in a
    location. *)
Record Time := { unixNano : Z; loc : Location }.

Definition Unix (t : Time) : Z := unixNano t / Second.

Definition In (t : Time) (l : Location) : Time :=
  {| unixNano := unixNano t; loc := l |}.

(** Seconds of the local wall clock, counted from 1970-01-01 00:00:00
    of that clock. *)
Definition localSec (t : Time) : Z :=
  Unix t + (lookup (loc t) (Unix t)).1.1.

(** Days since 1970-01-01 to a date of the proleptic Gregorian calendar
    and back. *)
Definition civilFromDays (days : Z) : Z * Z * Z :=
  let z := days + 719468 in
  let era := z / 146097 in
  let doe := z - era * 146097 in
  let yoe := (doe - doe / 1460 + doe / 36524 - doe / 146096) / 365 in
  let doy := doe - (365 * yoe + yoe / 4 - yoe / 100) in
  let mp := (5 * doy + 2) / 153 in
  let d := doy - (153 * mp + 2) / 5 + 1 in
  let m := if mp <? 10 then mp + 3 else mp - 9 in
  let y := yoe + era * 400 in
  (if m <=? 2 then y + 1 else y, m, d).

Definition daysFromCivil (y m d : Z) : Z :=
  let y' := if m <=? 2 then y - 1 else y in
  let era := y' / 400 in
  let yoe := y' - era * 400 in
  let doy := (153 * (if 2 <? m then m - 3 else m + 9) + 2) / 5 + d - 1 in
  let doe := yoe * 365 + yoe / 4 - yoe / 100 + doy in
  era * 146097 + doe - 719468.

Definition Date3 (t : Time) : Z * Z * Z := civilFromDays (localSec t / 86400).
Definition Year (t : Time) : Z := (Date3 t).1.1.
Definition Month (t : Time) : Z := (Date3 t).1.2.
Definition Day (t : Time) : Z := (Date3 t).2.
Definition HourOf (t : Time) : Z := (localSec t mod 86400) / 3600.
Definition MinuteOf (t : Time) : Z := (localSec t mod 3600) / 60.
Definition SecondOf (t : Time) : Z := localSec t mod 60.

(** [t.Sub(u)]: the difference of the instants, saturated to the range
    of [Duration]. *)
Definition Sub (t u : Time) : Duration :=
  let d := unixNano t - unixNano u in
  if d <? minDuration then minDuration
  else if maxDuration <? d then maxDuration
  else d.

Definition After (t u : Time) : bool := unixNano u <? unixNano t.

(** The zero [Time]: January 1, year 1, 00:00:00 UTC. *)
Definition zeroTime : Time :=
  {| unixNano := -62135596800 * Second; loc := UTC |}.

Definition isLeap (y : Z) : bool :=
  ((y mod 4 =? 0) && (negb (y mod 100 =? 0) || (y mod 400 =? 0)))%bool.

Definition daysIn (m y : Z) : Z :=
  if m =? 2 then (if isLeap y then 29 else 28)
  else if ((m =? 4) || (m =? 6) || (m =? 9) || (m =? 11))%bool then 30
  else 31.

(** [time.Date] for fields already in range: the wall clock reading is
    first taken as if it were UTC, then moved by the offset in force. *)
Definition Date (y m d h mi s : Z) (l : Location) : Time :=
  let unix := daysFromCivil y m d * 86400 + h * 3600 + mi * 60 + s in
  let '(off, start, stop) := lookup l unix in
  let off' :=
    if off =? 0 then 0
    else
      let utc := unix - off in
      if ((utc <? start) || (stop <=? utc))%bool then (lookup l utc).1.1 else off in
  {| unixNano := (unix - off') * Second; loc := l |}.

(** ** Parsing with the layout ["2006-01-02 15:04:05"] *)

Definition digitVal (c : ascii) : option Z :=
  let n := nat_of_ascii c in
  if ((48 <=? n)%nat && (n <=? 57)%nat)%bool then Some (Z.of_nat n - 48) else None.

(** A fixed run of [n] digits at the head of [s]. *)
Fixpoint digits (n : nat) (acc : Z) (s : string) : option (Z * string) :=
  match n with
  | O => Some (acc, s)
  | S n' =>
      match s with
      | String c r =>
          match digitVal c with
          | Some v => digits n' (10 * acc + v) r
          | None => None
          end
      | EmptyString => None
      end
  end.

(** [getnum s false]: one or two digits. *)
Definition getnum12 (s : string) : option (Z * string) :=
  match s with
  | String c r =>
      match digitVal c with
      | Some v =>
          match r with
          | String c' r' =>
              match digitVal c' with
              | Some v' => Some (10 * v + v', r')
              | None => Some (v, r)
              end
          | EmptyString => Some (v, r)
          end
      | None => None
      end
  | EmptyString => None
  end.

(** A literal byte of the layout. *)
Definition lit (c : ascii) (s : string) : option string :=
  match s with
  | String c' r => if Ascii.eqb c c' then Some r else None
  | EmptyString => None
  end.

(** [time.ParseInLocation "2006-01-02 15:04:05" value l].  The clients
    below always pass a text that ends in [":00"], so the optional
    fraction of a second the library accepts after the seconds does
    not arise. *)
Definition ParseInLocation (value : string) (l : Location) : option Time :=
  '(y, s) ← digits 4 0 value;
  s ← lit "-" s;
  '(m, s) ← digits 2 0 s;
  s ← lit "-" s;
  '(d, s) ← digits 2 0 s;
  s ← lit " " s;
  '(h, s) ← getnum12 s;
  s ← lit ":" s;
  '(mi, s) ← digits 2 0 s;
  s ← lit ":" s;
  '(sec, s) ← digits 2 0 s;
  if negb (String.eqb s "") then None
  else if ((h <? 24) && (mi <? 60) && (sec <? 60)
           && (1 <=? m) && (m <=? 12) && (1 <=? d) && (d <=? daysIn m y))%bool
  then Some (Date y m d h mi sec l)
  else None.

End GoTime.

(* ===================================================================== *)
(** * Decoded JSON ([encoding/json] into [interface{}]) *)
(* ===================================================================== *)

Module Json.

(** What [json.Unmarshal] stores in an [interface{}].  An object is
    the list of its members, each key once; [lookupKey] returns the
    binding of a key.  Numbers are carried as integers (the venue ids of
    the service). *)
Inductive Value :=
| Null
| Bool (b : bool)
| Number (n : Z)
| Str (s : string)
| Array (l : list Value)
| Object (m : list (string * Value)).

(** [map[string]interface{}]; [None] is the nil map. *)
Abbreviation Map := (list (string * Value)).

Fixpoint lookupKey (m : Map) (k : string) : option Value :=
  match m with
  | [] => None
  | (k', v) :: r => if String.eqb k k' then Some v else lookupKey r k
  end.

(** [m[k]] on a map that may be nil. *)
Definition index (m : option Map) (k : string) : option Value :=
  match m with
  | Some m => lookupKey m k
  | None => None
  end.

(** The type assertions [v.(map[string]interface{})], [v.(string)],
    [v.([]interface{})] and [v.(float64)] in their two-result form. *)
Definition asMap (v : option Value) : option Map :=
  match v with Some (Object m) => Some m | _ => None end.

Definition asString (v : option Value) : option string :=
  match v with Some (Str s) => Some s | _ => None end.

Definition asArray (v : option Value) : option (list Value) :=
  match v with Some (Array l) => Some l | _ => None end.

Definition asNumber (v : option Value) : option Z :=
  match v with Some (Number n) => Some n | _ => None end.

(** [json.Unmarshal(data, &m)] for [m : map[string]interface{}], given
    the value the text denotes ([None]: the text is not JSON).  [null]
    leaves the map nil, anything but an object or [null] is an error. *)
Definition UnmarshalMap (decoded : option Value) : option (option Map) :=
  match decoded with
  | Some (Object m) => Some (Some m)
  | Some Null => Some None
  | _ => None
  end.

End Json.

(* ===================================================================== *)
(** * [net/http] values *)
(* ===================================================================== *)

Module Http.

Record Cookie := {
  Name : string;
  Value : string;
  Domain : string;
  Path : string;
  Secure : bool;
  HttpOnly : bool;
  Expires : GoTime.Time
}.

(** [http.Header]: canonical key to values. *)
Abbreviation Header := (gmap string (list string)).

Definition Values (h : Header) (k : string) : list string := default [] (h !! k).

Definition Get (h : Header) (k : string) : string :=
  match Values h k with
  | v :: _ => v
  | [] => ""
  end.

Definition HeaderSet (h : Header) (k v : string) : Header := <[k := [v]]> h.

Definition HeaderAdd (h : Header) (k v : string) : Header := <[k := Values h k ++ [v]]> h.

(** The body of a request of the client: a JSON object or a form. *)
Inductive Payload :=
| JSONBody (fields : list (string * Json.Value))
| FormBody (fields : list (string * string)).

(** A request: the fields the sources read or write.  [ReqCookies] are
    the cookies given to [AddCookie]; [Query] is [URL.Query()]. *)
Record Request := {
  Method : string;
  URL : string;
  ReqHeader : Header;
  ReqCookies : list Cookie;
  ReqBody : option Payload;
  Query : gmap string (list string)
}.

Definition AddCookie (r : Request) (c : Cookie) : Request :=
  {| Method := Method r; URL := URL r; ReqHeader := ReqHeader r;
     ReqCookies := ReqCookies r ++ [c]; ReqBody := ReqBody r; Query := Query r |}.

Definition SetHeader (r : Request) (k v : string) : Request :=
  {| Method := Method r; URL := URL r; ReqHeader := HeaderSet (ReqHeader r) k v;
     ReqCookies := ReqCookies r; ReqBody := ReqBody r; Query := Query r |}.

Definition AddHeader (r : Request) (k v : string) : Request :=
  {| Method := Method r; URL := URL r; ReqHeader := HeaderAdd (ReqHeader r) k v;
     ReqCookies := ReqCookies r; ReqBody := ReqBody r; Query := Query r |}.

(** What [io.ReadAll(resp.Body)] gives: a read error, or the text
    together with the JSON value it denotes, if any. *)
Inductive Body :=
| ReadError (msg : string)
| Text (raw : string) (decoded : option Json.Value).

Record Response := {
  StatusCode : Z;
  RespHeader : Header;
  RespBody : Body
}.

Definition StatusUnauthorized : Z := 401.
Definition StatusMethodNotAllowed : Z := 405.

End Http.

(* ===================================================================== *)
(** * Package [api]: the declarations the sources use *)
(* ===================================================================== *)

Module Api.

(** Modelled from the spec: package [api] (error values, [ReserveParam],
    [ReserveResponse], [TableType]) is not among the sources.  The error
    kinds are those of the taxonomy: the challenge error, [NoOffer],
    [NoTable], the plain network error, and the network error carrying
    step, status and message.  [Other] stands for an error value made by
    a library ([net/http], [encoding/json], [fmt.Errorf]). *)
Inductive Error :=
| ErrNetwork
| ErrNoOffer
| ErrNoTable
| ErrImperva
| NetworkError (Step : string) (Status : Z) (Message : string)
| Other (msg : string).

Definition NewNetworkError (step : string) (status : Z) (message : string) : Error :=
  NetworkError step status message.

(** Modelled from the spec: [api.TableType] is a string naming a seating
    preference. *)
Definition TableType := string.

(** Modelled from the spec: the fields of [api.LoginResponse],
    [api.ReserveParam] and [api.ReserveResponse] that the sources set or
    read. *)
Record LoginResponse := {
  AuthToken : string;
  PaymentMethodID : Z
}.

Record ReserveParam := {
  VenueID : Z;
  ReservationTimes : list GoTime.Time;
  PartySize : Z;
  LoginResp : LoginResponse;
  TableTypes : list TableType
}.

Record ReserveResponse := {
  ReservationTime : GoTime.Time
}.

End Api.

(* ===================================================================== *)
(** * [config/config.go] *)
(* ===================================================================== *)

Module Config.

Record Config := {
  RedisURL : string;
  RedisPassword : string;
  ResyAPIKey : string;
  CookieSecretKey : option string;
  CookieBlockKey : option string;
  Port : string;
  AdminToken : string;
  CookieRefreshEnabled : bool;
  CookieRefreshInterval : GoTime.Duration;
  KnownVenueIDs : list Z
}.

(** [HasAdminToken]: an admin token is configured. *)
Definition HasAdminToken (c : Config) : bool :=
  negb (String.eqb (AdminToken c) "").

(** [ValidateAdminToken]: with no token configured every token is
    denied. *)
Definition ValidateAdminToken (c : Config) (token : string) : bool :=
  if negb (HasAdminToken c) then false
  else String.eqb token (AdminToken c).

End Config.

(* ===================================================================== *)
(** * The Redis server *)
(* ===================================================================== *)

Module Redis.

(** A sorted set: members with their scores, kept in the order of the
    server (by score, members of equal score in byte order), each
    member once. *)
Abbreviation ZSet := (list (Z * string)).

(** One keyspace for both kinds of value; [V] is the type of the string
    values. *)
Inductive Entry (V : Type) :=
| StringEntry (v : V)
| ZSetEntry (z : ZSet).
Arguments StringEntry {V} v.
Arguments ZSetEntry {V} z.

Abbreviation DB V := (gmap string (Entry V)).

(** Replies that are errors: [redis.Nil] (no such key) and the
    [WRONGTYPE] error of a command used on a key of the other kind.
    Connection failures are outside the model. *)
Inductive Err := Nil | WrongType.

Definition before (a b : Z * string) : bool :=
  ((a.1 <? b.1) || ((a.1 =? b.1) && String.ltb a.2 b.2))%bool.

Fixpoint zinsert (e : Z * string) (z : ZSet) : ZSet :=
  match z with
  | [] => [e]
  | e' :: r => if before e e' then e :: z else e' :: zinsert e r
  end.

Definition zremove (member : string) (z : ZSet) : ZSet :=
  filter (fun e => e.2 <> member) z.

(** SET key value (no expiry): any previous value of the key, of either
    kind, is replaced. *)
Definition SET {V} (db : DB V) (key : string) (v : V) : DB V :=
  <[key := StringEntry v]> db.

(** GET key. *)
Definition GET {V} (db : DB V) (key : string) : Err + V :=
  match db !! key with
  | None => inl Nil
  | Some (StringEntry v) => inr v
  | Some (ZSetEntry _) => inl WrongType
  end.

(** DEL key. *)
Definition DEL {V} (db : DB V) (key : string) : DB V := delete key db.

(** ZADD key score member: a member already present moves to its new
    score. *)
Definition ZADD {V} (db : DB V) (key : string) (score : Z) (member : string)
  : DB V * option Err :=
  match db !! key with
  | None => (<[key := ZSetEntry [(score, member)]]> db, None)
  | Some (ZSetEntry z) =>
      (<[key := ZSetEntry (zinsert (score, member) (zremove member z))]> db, None)
  | Some (StringEntry _) => (db, Some WrongType)
  end.

(** ZREM key member: a sorted set left empty is removed with its key. *)
Definition ZREM {V} (db : DB V) (key : string) (member : string)
  : DB V * option Err :=
  match db !! key with
  | None => (db, None)
  | Some (ZSetEntry z) =>
      match zremove member z with
      | [] => (delete key db, None)
      | z' => (<[key := ZSetEntry z']> db, None)
      end
  | Some (StringEntry _) => (db, Some WrongType)
  end.

(** The members with ranks [start..stop]; negative ranks count from the
    end. *)
Definition zrange (z : ZSet) (start stop : Z) : list string :=
  let n := Z.of_nat (length z) in
  let start := if start <? 0 then Z.max 0 (n + start) else start in
  let stop := if stop <? 0 then n + stop else stop in
  let stop := Z.min stop (n - 1) in
  if ((stop <? start) || (n <=? start))%bool then []
  else (take (Z.to_nat (stop - start + 1)) (drop (Z.to_nat start) z)).*2.

(** ZRANGE key start stop. *)
Definition ZRANGE {V} (db : DB V) (key : string) (start stop : Z)
  : Err + list string :=
  match db !! key with
  | None => inr []
  | Some (ZSetEntry z) => inr (zrange z start stop)
  | Some (StringEntry _) => inl WrongType
  end.

(** ZCARD key. *)
Definition ZCARD {V} (db : DB V) (key : string) : Err + Z :=
  match db !! key with
  | None => inr 0
  | Some (ZSetEntry z) => inr (Z.of_nat (length z))
  | Some (StringEntry _) => inl WrongType
  end.

End Redis.

(* ===================================================================== *)
(** * [store/redis.go], [store/cookies.go], [store/reservations.go] *)
(* ===================================================================== *)

Module Store.
Import GoTime.

(** [ScheduledReservation]: a reservation scheduled for future
    execution. *)
Record ScheduledReservation := {
  ID : string;
  VenueID : Z;
  ReservationTime : Time;
  PartySize : Z;
  TablePreferences : list string;
  AuthToken : string;
  RunTime : Time;
  CreatedAt : Time
}.

(** [CookieData]: the stored cookies of a venue. *)
Record CookieData := {
  Cookies : list Http.Cookie;
  UserAgent : string;
  ExpiresAt : Time
}.

(** The string values the program writes are the JSON encodings of
    these two records.  [json.Unmarshal] gives back the fields that
    [json.Marshal] wrote (a [time.Time] is written with its nanoseconds
    and read back as the same instant), so a stored text is represented
    by the record it encodes. *)
Inductive Blob :=
| ReservationJSON (r : ScheduledReservation)
| CookiesJSON (c : CookieData).

Abbreviation DB := (gmap string (Redis.Entry Blob)).

(** Errors of the store functions: a reply of the server, or a text
    that does not decode as the expected record. *)
Inductive Error :=
| RedisError (e : Redis.Err)
| DecodeError.

(** Key prefixes. *)
Definition CookieKeyPrefix : string := "cookies:".
Definition ReservationKeyPrefix : string := "reservations:".
Definition PendingSetKey : string := "reservations:pending".

(** [strconv.Itoa] / the verb [%d]. *)
Definition Itoa (n : Z) : string :=
  DecimalString.NilZero.string_of_int (Z.to_int n).

Definition CookieKey (venueID : Z) : string := CookieKeyPrefix +:+ Itoa venueID.

Definition ReservationKey (id : string) : string := ReservationKeyPrefix +:+ id.

(** [GetCookies]. *)
Definition GetCookies (db : DB) (venueID : Z) : Error + CookieData :=
  match Redis.GET db (CookieKey venueID) with
  | inl e => inl (RedisError e)
  | inr (CookiesJSON c) => inr c
  | inr (ReservationJSON _) => inl DecodeError
  end.

(** [SaveReservation]: the record under its own key, then its id in the
    pending sorted set, scored by the run time in whole Unix seconds
    (the [float64] score holds them exactly: they are far below 2^53). *)
Definition SaveReservation (db : DB) (res : ScheduledReservation)
  : DB * option Error :=
  let key := ReservationKey (ID res) in
  let db := Redis.SET db key (ReservationJSON res) in
  let score := Unix (RunTime res) in
  match Redis.ZADD db PendingSetKey score (ID res) with
  | (db, Some e) => (db, Some (RedisError e))
  | (db, None) => (db, None)
  end.

(** [GetReservation]. *)
Definition GetReservation (db : DB) (id : string) : Error + ScheduledReservation :=
  match Redis.GET db (ReservationKey id) with
  | inl e => inl (RedisError e)
  | inr (ReservationJSON r) => inr r
  | inr (CookiesJSON _) => inl DecodeError
  end.

(** [DeleteReservation]: out of the sorted set first, then the record. *)
Definition DeleteReservation (db : DB) (id : string) : DB * option Error :=
  match Redis.ZREM db PendingSetKey id with
  | (db, Some e) => (db, Some (RedisError e))
  | (db, None) => (Redis.DEL db (ReservationKey id), None)
  end.

(** [GetNextReservation]: the earliest pending reservation; [inr None]
    when nothing is pending. *)
Definition GetNextReservation (db : DB) : Error + option ScheduledReservation :=
  match Redis.ZRANGE db PendingSetKey 0 0 with
  | inl e => inl (RedisError e)
  | inr [] => inr None
  | inr (id :: _) =>
      match GetReservation db id with
      | inl e => inl e
      | inr r => inr (Some r)
      end
  end.

(** [CountPendingReservations]. *)
Definition CountPendingReservations (db : DB) : Error + Z :=
  match Redis.ZCARD db PendingSetKey with
  | inl e => inl (RedisError e)
  | inr n => inr n
  end.

(** [GenerateReservationID], given the reading of the clock. *)
Definition GenerateReservationID (now : Time) : string :=
  "res_" +:+ Itoa (unixNano now).

End Store.

(* ===================================================================== *)
(** * [api/resy/api.go]: the challenge-aware client *)
(* ===================================================================== *)

Module Resy.
Import GoStrings GoTime.

(** [API]: the Resy implementation of the api interface. *)
Record API := {
  APIKey : string;
  Cookies : list Http.Cookie;
  UserAgent : string
}.

(** The surroundings of the client: what the libraries and the network
    answer.
    - [ParseRFC1123 s] is [time.Parse(time.RFC1123, s)];
    - [LoadLocation] is [time.LoadLocation("America/New_York")];
    - [NewRequestOK method url] tells whether [http.NewRequest] accepts
      the method and the URL;
    - [RoundTrip n req] is what [client.Do(req)] returns when it is the
      [n]-th request sent (counting from 0): an error or a response. *)
Record Env := {
  ParseRFC1123 : string -> option Time;
  LoadLocation : option Location;
  NewRequestOK : string -> string -> bool;
  RoundTrip : nat -> Http.Request -> Api.Error + Http.Response
}.

(** The client at work: the [API] value behind the receiver, the
    requests handed to [client.Do] so far (oldest first) and the time
    spent in [time.Sleep]. *)
Record World := {
  self : API;
  sent : list Http.Request;
  slept : Duration
}.

Definition withAPI (w : World) (a : API) : World :=
  {| self := a; sent := sent w; slept := slept w |}.

(** [isCodeFail]: true if the HTTP code is not a success code. *)
Definition isCodeFail (code : Z) : bool :=
  let fst := code ÷ 100 in
  negb (fst =? 2).

(** [min]. *)
Definition min (a b : Z) : Z := if a <? b then a else b.

Definition defaultUserAgent : string :=
  "Mozilla/5.0 (Macintosh; Intel Mac OS X 10_15_7) AppleWebKit/537.36 (KHTML, like Gecko) Chrome/120.0.0.0 Safari/537.36".

(** [SetCookies]. *)
Definition SetCookies (a : API) (cookies : list Http.Cookie) (userAgent : string) : API :=
  {| APIKey := APIKey a;
     Cookies := cookies;
     UserAgent := if negb (String.eqb userAgent "") then userAgent else defaultUserAgent |}.

(** [addCookiesToRequest]. *)
Definition addCookiesToRequest (a : API) (req : Http.Request) : Http.Request :=
  let req := foldl Http.AddCookie req (Cookies a) in
  if negb (String.eqb (UserAgent a) "") then Http.SetHeader req "User-Agent" (UserAgent a)
  else req.

(** The name test of [extractCookiesFromResponse]. *)
Definition hasImpervaPrefix (cookieName : string) : bool :=
  (HasPrefix cookieName "_incap_"
   || HasPrefix cookieName "incap_ses_"
   || HasPrefix cookieName "_visid_"
   || HasPrefix cookieName "visid_incap_"
   || HasPrefix cookieName "nlbi_")%bool.

(** One round of the loop over the attributes [parts[1..]]. *)
Definition applyAttribute (E : Env) (cookie : Http.Cookie) (raw : string) : Http.Cookie :=
  let part := TrimSpace raw in
  let with_ d p s h e :=
    {| Http.Name := Http.Name cookie; Http.Value := Http.Value cookie;
       Http.Domain := d; Http.Path := p; Http.Secure := s; Http.HttpOnly := h;
       Http.Expires := e |} in
  let d := Http.Domain cookie in
  let p := Http.Path cookie in
  let s := Http.Secure cookie in
  let h := Http.HttpOnly cookie in
  let e := Http.Expires cookie in
  if HasPrefix (ToLower part) "domain=" then with_ (TrimPrefix part "domain=") p s h e
  else if HasPrefix (ToLower part) "path=" then with_ d (TrimPrefix part "path=") s h e
  else if String.eqb (ToLower part) "secure" then with_ d p true h e
  else if String.eqb (ToLower part) "httponly" then with_ d p s true e
  else if HasPrefix (ToLower part) "expires=" then
    match ParseRFC1123 E (TrimPrefix part "expires=") with
    | Some t => with_ d p s h t
    | None => cookie
    end
  else cookie.

(** The index of the first cookie called [name], searching from index
    [i] on. *)
Fixpoint findByName (name : string) (cs : list Http.Cookie) (i : nat) : option nat :=
  match cs with
  | [] => None
  | c :: r => if String.eqb (Http.Name c) name then Some i else findByName name r (S i)
  end.

(** "Add or update cookie": the first cookie of that name is overwritten
    where it stands, a new name is appended. *)
Definition addOrUpdate (cs : list Http.Cookie) (cookie : Http.Cookie) : list Http.Cookie :=
  match findByName (Http.Name cookie) cs 0 with
  | Some i => <[i := cookie]> cs
  | None => cs ++ [cookie]
  end.

(** The cookie a [Set-Cookie] value yields, if its name passes the
    test. *)
Definition parseImpervaCookie (E : Env) (cookieStr : string) : option Http.Cookie :=
  match Split cookieStr ";" with
  | [] => None
  | first :: attrs =>
      match SplitN2 first "=" with
      | [n; v] =>
          let cookieName := TrimSpace n in
          let cookieValue := v in
          if hasImpervaPrefix cookieName then
            Some (foldl (applyAttribute E)
                    {| Http.Name := cookieName; Http.Value := cookieValue;
                       Http.Domain := ".resy.com"; Http.Path := "/";
                       Http.Secure := false; Http.HttpOnly := false;
                       Http.Expires := zeroTime |}
                    attrs)
          else None
      | _ => None
      end
  end.

(** One round of the loop over the [Set-Cookie] values. *)
Definition harvest (E : Env) (cs : list Http.Cookie) (cookieStr : string) : list Http.Cookie :=
  match parseImpervaCookie E cookieStr with
  | Some cookie => addOrUpdate cs cookie
  | None => cs
  end.

(** [extractCookiesFromResponse]. *)
Definition extractCookiesFromResponse (E : Env) (a : API) (resp : Http.Response) : API :=
  if (String.eqb (Http.Get (Http.RespHeader resp) "X-Cdn") "Imperva"
      || String.eqb (Http.Get (Http.RespHeader resp) "Server") "nginx")%bool
  then {| APIKey := APIKey a;
          Cookies := foldl (harvest E) (Cookies a) (Http.Values (Http.RespHeader resp) "Set-Cookie");
          UserAgent := UserAgent a |}
  else a.

(** [isImpervaChallenge]. *)
Definition isImpervaChallenge (resp : Http.Response) : bool :=
  let code := Http.StatusCode resp in
  if (negb (code =? 500) && negb (code =? 403) && negb (code =? 503))%bool then false
  else if String.eqb (Http.Get (Http.RespHeader resp) "X-Cdn") "Imperva" then true
  else if (String.eqb (Http.Get (Http.RespHeader resp) "Server") "nginx" && (code =? 500))%bool then true
  else false.

(** [http.NewRequest method url body]. *)
Definition NewRequest (E : Env) (method url : string) (body : option Http.Payload)
  : option Http.Request :=
  if NewRequestOK E method url then
    Some {| Http.Method := method; Http.URL := url; Http.ReqHeader := ∅;
            Http.ReqCookies := []; Http.ReqBody := body; Http.Query := ∅ |}
  else None.

(** [client.Do(req)]: the request is recorded as sent. *)
Definition Do (E : Env) (w : World) (req : Http.Request)
  : World * (Api.Error + Http.Response) :=
  ({| self := self w; sent := sent w ++ [req]; slept := slept w |},
   RoundTrip E (length (sent w)) req).

Definition Sleep (w : World) (d : Duration) : World :=
  {| self := self w; sent := sent w; slept := slept w + d |}.

(** The copy of the original headers onto a rebuilt request.  The
    [Cookie] header is among them: the cookies of the original request
    come along. *)
Definition copyHeaders (original : Http.Request) (req : Http.Request) : Http.Request :=
  let req :=
    map_fold (fun key values req => foldl (fun req value => Http.AddHeader req key value) req values)
             req (Http.ReqHeader original) in
  foldl Http.AddCookie req (Http.ReqCookies original).

(** The loop of [doRequestWithRetry], [left] rounds before
    [attempt <= maxRetries] fails. *)
Fixpoint retryLoop (E : Env) (left : nat) (attempt maxRetries : Z)
    (original : Http.Request) (bodyBytes : option Http.Payload)
    (w : World) (req : Http.Request) (lastImpervaResponse : bool)
  : World * (Api.Error + Http.Response) :=
  match left with
  | O =>
      if lastImpervaResponse then (w, inl Api.ErrImperva)
      else (w, inl (Api.Other "max retries exceeded"))
  | S left' =>
      let prepared : option (World * Http.Request) :=
        if 0 <? attempt then
          match
            match bodyBytes with
            | Some _ =>
                match NewRequest E (Http.Method original) (Http.URL original) bodyBytes with
                | Some r => Some (copyHeaders original r)
                | None => None
                end
            | None => Some req
            end
          with
          | Some req => Some (Sleep w (1 * Second), addCookiesToRequest (self w) req)
          | None => None
          end
        else Some (w, req) in
      match prepared with
      | None => (w, inl (Api.Other "failed to recreate request"))
      | Some (w, req) =>
          match Do E w req with
          | (w, inl err) => (w, inl err)
          | (w, inr resp) =>
              if isImpervaChallenge resp then
                let w := withAPI w (extractCookiesFromResponse E (self w) resp) in
                if attempt <? maxRetries then
                  retryLoop E left' (attempt + 1) maxRetries original bodyBytes w req true
                else (w, inl Api.ErrImperva)
              else (w, inr resp)
          end
      end
  end.

(** [doRequestWithRetry]: the request is sent, and sent again after a
    challenge, [maxRetries] times at most. *)
Definition doRequestWithRetry (E : Env) (w : World) (req : Http.Request)
    (bodyBytes : option Http.Payload) (maxRetries : Z) (venueID : Z)
  : World * (Api.Error + Http.Response) :=
  retryLoop E (Z.to_nat (maxRetries + 1)) 0 maxRetries req bodyBytes w req false.

(** [LoadCookiesFromStore]. *)
Definition LoadCookiesFromStore (db : Store.DB) (a : API) (venueID : Z)
  : API * option Store.Error :=
  match Store.GetCookies db venueID with
  | inl err => (a, Some err)
  | inr cookieData => (SetCookies a (Store.Cookies cookieData) (Store.UserAgent cookieData), None)
  end.

(* --------------------------------------------------------------------- *)
(** ** [Reserve] *)
(* --------------------------------------------------------------------- *)

(** What a call of [Reserve] ends in: a response, an error, or the
    run-time panic of an index out of range. *)
Inductive Result :=
| Booked (resp : Api.ReserveResponse)
| Failed (err : Api.Error)
| Panicked.

Definition quote : string := String (ascii_of_nat 34) EmptyString.

(** The verb [%02d]. *)
Definition pad2 (n : Z) : string :=
  let s := Store.Itoa n in
  if (String.length s <? 2)%nat then "0" +:+ s else s.

Definition findUrl : string := "https://api.resy.com/4/find".
Definition detailUrl : string := "https://api.resy.com/3/details".
Definition bookUrl : string := "https://api.resy.com/3/book".

(** [nycLocation] inside [Reserve]: UTC when the zone cannot be
    loaded. *)
Definition nycLocation (E : Env) : Location :=
  match LoadLocation E with
  | Some l => l
  | None => UTC
  end.

(** The [date] string of the find and detail requests. *)
Definition dateString (reservationTimeNYC : Time) : string :=
  let year := Store.Itoa (Year reservationTimeNYC) in
  let month := pad2 (Month reservationTimeNYC) in
  let day := pad2 (Day reservationTimeNYC) in
  year +:+ "-" +:+ month +:+ "-" +:+ day.

Definition withUserAgentFallback (a : API) (req : Http.Request) : Http.Request :=
  if String.eqb (UserAgent a) "" then Http.SetHeader req "User-Agent" defaultUserAgent
  else req.

(** The find request with its headers. *)
Definition findBody (date : string) (params : Api.ReserveParam) : Http.Payload :=
  Http.JSONBody [("day", Json.Str date);
                 ("venue_id", Json.Number (Api.VenueID params));
                 ("party_size", Json.Number (Api.PartySize params));
                 ("lat", Json.Number 0);
                 ("long", Json.Number 0)].

Definition findHeaders (a : API) (params : Api.ReserveParam) (request : Http.Request)
  : Http.Request :=
  let token := Api.AuthToken (Api.LoginResp params) in
  let request := Http.SetHeader request "Content-Type" "application/json" in
  let request := Http.SetHeader request "Authorization"
                   ("ResyAPI api_key=" +:+ quote +:+ APIKey a +:+ quote) in
  let request := Http.SetHeader request "X-Resy-Auth-Token" token in
  let request := Http.SetHeader request "X-Resy-Universal-Auth-Token" token in
  let request := Http.SetHeader request "Referer" "https://resy.com/" in
  let request := Http.SetHeader request "Origin" "https://resy.com" in
  withUserAgentFallback a (addCookiesToRequest a request).

(** The error of a find response with a failing status: the [message]
    member of the body if the body is a JSON object that has one, the
    whole body otherwise. *)
Definition findErrorMsg (raw : string) (decoded : option Json.Value) : string :=
  match Json.UnmarshalMap decoded with
  | Some errorMap =>
      match Json.asString (Json.index errorMap "message") with
      | Some message => message
      | None => raw
      end
  | None => raw
  end.

(** The loop that looks for the requested venue among the result
    blocks; [None] when no block carries the requested id. *)
Fixpoint matchVenue (venueID : Z) (jsonVenuesList : list Json.Value) : option Json.Map :=
  match jsonVenuesList with
  | [] => None
  | v :: rest =>
      match Json.asMap (Some v) with
      | None => matchVenue venueID rest
      | Some venue =>
          match
            venueInfo ← Json.asMap (Json.lookupKey venue "venue");
            idInfo ← Json.asMap (Json.lookupKey venueInfo "id");
            Json.asNumber (Json.lookupKey idInfo "resy")
          with
          | Some resyID => if resyID =? venueID then Some venue else matchVenue venueID rest
          | None => matchVenue venueID rest
          end
      end
  end.

(** The slot list of a decoded find response, or the error [Reserve]
    returns for it. *)
Definition slotsOfFindResponse (venueID : Z) (jsonTopLevelMap : option Json.Map)
  : Api.Error + list Json.Value :=
  match Json.asMap (Json.index jsonTopLevelMap "results") with
  | None => inl (Api.NewNetworkError "find" 0 "invalid response: 'results' key not found")
  | Some jsonResultsMap =>
      match Json.asArray (Json.lookupKey jsonResultsMap "venues") with
      | None => inl (Api.NewNetworkError "find" 0 "invalid response: 'venues' key not found")
      | Some jsonVenuesList =>
          if (length jsonVenuesList =? 0)%nat then inl Api.ErrNoOffer
          else
            let jsonVenueMap :=
              match matchVenue venueID jsonVenuesList with
              | Some venue => Some venue
              | None => Json.asMap (head jsonVenuesList)
              end in
            match jsonVenueMap with
            | None => inl (Api.NewNetworkError "find" 0 "invalid response: venue structure is invalid")
            | Some jsonVenueMap =>
                match Json.asArray (Json.lookupKey jsonVenueMap "slots") with
                | None => inl (Api.NewNetworkError "find" 0
                                 "invalid response: 'slots' key not found in venue")
                | Some jsonSlotsList => inr jsonSlotsList
                end
            end
      end
  end.

(** *** The slot search *)

(** The variables of the search over the slot list.  [visited] is not
    in the source: it lists the indices the loop has started on
    ("Evaluating slot j"), latest last. *)
Record Search := {
  bestSlot : option Json.Map;
  bestSlotIndex : Z;
  bestSlotTime : Time;
  bestSlotConfigToken : string;
  bestTimeDiff : Duration;
  foundExactMatch : bool;
  visited : list Z
}.

Definition maxTimeDiff : Duration := 30 * Minute.

Definition searchStart : Search :=
  {| bestSlot := None; bestSlotIndex := -1; bestSlotTime := zeroTime;
     bestSlotConfigToken := ""; bestTimeDiff := 31 * Minute;
     foundExactMatch := false; visited := [] |}.

Inductive Flow := Continue | Break.

(** The start time of a slot: the [start] text, cut at the blank and at
    the colons, read as local time with the seconds set to 00. *)
Definition slotStart (nyc : Location) (jsonSlotMap : Json.Map) : option Time :=
  jsonDateMap ← Json.asMap (Json.lookupKey jsonSlotMap "date");
  startRaw ← Json.asString (Json.lookupKey jsonDateMap "start");
  match Split startRaw " " with
  | [dateStr; clock] =>
      match Split clock ":" with
      | [hh; mm; _] =>
          let dateTimeStr := dateStr +:+ " " +:+ hh +:+ ":" +:+ mm +:+ ":00" in
          ParseInLocation dateTimeStr nyc
      | _ => None
      end
  | _ => None
  end.

(** The date test: year, month and day all agree. *)
Definition sameDate (slotTime currentTimeNYC : Time) : bool :=
  negb (negb (Year slotTime =? Year currentTimeNYC)
        || negb (Month slotTime =? Month currentTimeNYC)
        || negb (Day slotTime =? Day currentTimeNYC)).

(** [timeMatches]: the exact match. *)
Definition timeMatches (slotTime currentTimeNYC : Time) : bool :=
  ((HourOf slotTime =? HourOf currentTimeNYC)
   && (MinuteOf slotTime =? MinuteOf currentTimeNYC))%bool.

(** The table type test on the [config] of a slot. *)
Definition tableTypeAccepted (hasTableTypePreference : bool)
    (currentTableType : Api.TableType) (jsonConfigMap : Json.Map) : bool :=
  if hasTableTypePreference then
    match Json.asString (Json.lookupKey jsonConfigMap "type") with
    | None => false
    | Some tableType => Contains (ToLower tableType) currentTableType
    end
  else true.

(** [absTimeDiff]. *)
Definition absTimeDiff (slotTime currentTimeNYC : Time) : Duration :=
  let timeDiff := Sub slotTime currentTimeNYC in
  if timeDiff <? 0 then negDuration timeDiff else timeDiff.

Definition keepToken (jsonConfigMap : Json.Map) (previous : string) : string :=
  match Json.asString (Json.lookupKey jsonConfigMap "token") with
  | Some configToken => configToken
  | None => previous
  end.

(** The body of the loop over the slots, for the slot at index [j]. *)
Definition evalSlot (nyc : Location) (hasTableTypePreference : bool)
    (currentTableType : Api.TableType) (currentTime : Time)
    (j : Z) (slot : Json.Value) (st : Search) : Search * Flow :=
  default (st, Continue) (
    jsonSlotMap ← Json.asMap (Some slot);
    slotTime ← slotStart nyc jsonSlotMap;
    let currentTimeNYC := In currentTime nyc in
    if negb (sameDate slotTime currentTimeNYC) then None
    else
      jsonConfigMap ← Json.asMap (Json.lookupKey jsonSlotMap "config");
      if negb (tableTypeAccepted hasTableTypePreference currentTableType jsonConfigMap)
      then None
      else if timeMatches slotTime currentTimeNYC then
        Some ({| bestSlot := Some jsonSlotMap; bestSlotIndex := j;
                 bestSlotTime := slotTime;
                 bestSlotConfigToken := keepToken jsonConfigMap (bestSlotConfigToken st);
                 bestTimeDiff := bestTimeDiff st;
                 foundExactMatch := true; visited := visited st |}, Break)
      else if negb (foundExactMatch st) then
        let d := absTimeDiff slotTime currentTimeNYC in
        if ((d <=? maxTimeDiff) && (d <? bestTimeDiff st))%bool then
          Some ({| bestSlot := Some jsonSlotMap; bestSlotIndex := j;
                   bestSlotTime := slotTime;
                   bestSlotConfigToken := keepToken jsonConfigMap (bestSlotConfigToken st);
                   bestTimeDiff := d;
                   foundExactMatch := foundExactMatch st; visited := visited st |}, Continue)
        else None
      else None).

Definition visit (j : Z) (st : Search) : Search :=
  {| bestSlot := bestSlot st; bestSlotIndex := bestSlotIndex st;
     bestSlotTime := bestSlotTime st; bestSlotConfigToken := bestSlotConfigToken st;
     bestTimeDiff := bestTimeDiff st; foundExactMatch := foundExactMatch st;
     visited := visited st ++ [j] |}.

(** The loop over the slots from index [j] on. *)
Fixpoint slotLoop (nyc : Location) (hasTableTypePreference : bool)
    (currentTableType : Api.TableType) (currentTime : Time)
    (j : Z) (jsonSlotsList : list Json.Value) (st : Search) : Search :=
  match jsonSlotsList with
  | [] => st
  | slot :: rest =>
      match evalSlot nyc hasTableTypePreference currentTableType currentTime j slot (visit j st) with
      | (st, Break) => st
      | (st, Continue) =>
          slotLoop nyc hasTableTypePreference currentTableType currentTime (j + 1) rest st
      end
  end.

(** The search for one requested time and one table type. *)
Definition searchSlots (nyc : Location) (hasTableTypePreference : bool)
    (currentTableType : Api.TableType) (currentTime : Time)
    (jsonSlotsList : list Json.Value) : Search :=
  slotLoop nyc hasTableTypePreference currentTableType currentTime 0 jsonSlotsList searchStart.

(** *** Detail and book *)

(** Why a pair of table type and requested time is left for the next
    one. *)
Inductive Reason :=
| NoSlot                      (* no slot within the window *)
| NoConfigToken               (* the best slot has no config token *)
| DetailNotSent               (* the detail request could not be built or sent *)
| DetailUnreadable            (* the detail body could not be read *)
| NoBookToken                 (* no [book_token.value] in the detail response *)
| BookNotSent                 (* the book request could not be built or sent *)
| BookStatus (code : Z)       (* the book response has a failing status *)
| BookUnreadable              (* the book body could not be read or decoded *)
| BookUnconfirmed (code : Z). (* no [reservation_id] in the book response *)

(** One round of the inner loop either goes on to the next pair or
    makes [Reserve] return. *)
Inductive Step :=
| Next (why : Reason)
| Return (r : Result).

Definition detailRequest (a : API) (requestDetail : Http.Request) : Http.Request :=
  let requestDetail := Http.SetHeader requestDetail "Content-Type" "application/json" in
  let requestDetail := Http.SetHeader requestDetail "Authorization"
      ("ResyAPI api_key=" +:+ quote +:+ "VbWk7s3L4KiK5fzlO7JD3Q5EYolJI7n5" +:+ quote) in
  withUserAgentFallback a (addCookiesToRequest a requestDetail).

Definition detailBody (date configToken : string) (params : Api.ReserveParam) : Http.Payload :=
  Http.JSONBody [("commit", Json.Str (Store.Itoa 1));
                 ("config_id", Json.Str configToken);
                 ("day", Json.Str date);
                 ("party_size", Json.Str (Store.Itoa (Api.PartySize params)))].

Definition bookBody (bookToken : string) (params : Api.ReserveParam) : Http.Payload :=
  let paymentMethodStr :=
    "{" +:+ quote +:+ "id" +:+ quote +:+ ":"
        +:+ Store.Itoa (Api.PaymentMethodID (Api.LoginResp params)) +:+ "}" in
  Http.FormBody [("book_token", bookToken);
                 ("struct_payment_method", paymentMethodStr);
                 ("source_id", "resy.com-venue-details")].

Definition bookRequest (a : API) (params : Api.ReserveParam) (requestBook : Http.Request)
  : Http.Request :=
  let token := Api.AuthToken (Api.LoginResp params) in
  let requestBook := Http.SetHeader requestBook "Authorization"
      ("ResyAPI api_key=" +:+ quote +:+ APIKey a +:+ quote) in
  let requestBook := Http.SetHeader requestBook "Content-Type" "application/x-www-form-urlencoded" in
  let requestBook := Http.SetHeader requestBook "Host" "api.resy.com" in
  let requestBook := Http.SetHeader requestBook "X-Resy-Auth-Token" token in
  let requestBook := Http.SetHeader requestBook "X-Resy-Universal-Auth" token in
  let requestBook := Http.SetHeader requestBook "Referer" "https://resy.com/" in
  withUserAgentFallback a (addCookiesToRequest a requestBook).

(** The book step, with the one-time token of the detail step. *)
Definition bookStep (E : Env) (w : World) (params : Api.ReserveParam)
    (bestSlotTime : Time) (bookToken : string) : World * Step :=
  match NewRequest E "POST" bookUrl (Some (bookBody bookToken params)) with
  | None => (w, Next BookNotSent)
  | Some requestBook =>
      match Do E w (bookRequest (self w) params requestBook) with
      | (w, inl _) => (w, Next BookNotSent)
      | (w, inr responseBook) =>
          if isCodeFail (Http.StatusCode responseBook) then
            (w, Next (BookStatus (Http.StatusCode responseBook)))
          else
            match Http.RespBody responseBook with
            | Http.ReadError _ => (w, Next BookUnreadable)
            | Http.Text _ decoded =>
                match Json.UnmarshalMap decoded with
                | None => (w, Next BookUnreadable)
                | Some bookTopLevelMap =>
                    match Json.index bookTopLevelMap "reservation_id" with
                    | Some _ =>
                        (w, Return (Booked {| Api.ReservationTime := bestSlotTime |}))
                    | None =>
                        (w, Next (BookUnconfirmed (Http.StatusCode responseBook)))
                    end
                end
            end
      end
  end.

(** The config token of the best slot: the one noted by the search, or
    the one read again from the slot when none was noted. *)
Definition bestConfigToken (st : Search) : option string :=
  let configToken := bestSlotConfigToken st in
  if String.eqb configToken "" then
    jsonConfigMap ← Json.asMap (Json.index (bestSlot st) "config");
    Json.asString (Json.lookupKey jsonConfigMap "token")
  else Some configToken.

(** What follows the search when it has found a slot: detail, then
    book. *)
Definition bookBest (E : Env) (w : World) (date : string) (params : Api.ReserveParam)
    (st : Search) : World * Step :=
  match bestConfigToken st with
  | None => (w, Next NoConfigToken)
  | Some configToken =>
      match NewRequest E "POST" detailUrl (Some (detailBody date configToken params)) with
      | None => (w, Next DetailNotSent)
      | Some requestDetail =>
          match Do E w (detailRequest (self w) requestDetail) with
          | (w, inl _) => (w, Next DetailNotSent)
          | (w, inr responseDetail) =>
              match Http.RespBody responseDetail with
              | Http.ReadError _ => (w, Next DetailUnreadable)
              | Http.Text raw decoded =>
                  if isCodeFail (Http.StatusCode responseDetail) then
                    (w, Return (Failed (Api.NewNetworkError "detail"
                                          (Http.StatusCode responseDetail) raw)))
                  else
                    match Json.UnmarshalMap decoded with
                    | None => (w, Return (Failed (Api.Other "invalid JSON in detail response")))
                    | Some detailTopLevelMap =>
                        match
                          jsonBookTokenMap ← Json.asMap (Json.index detailTopLevelMap "book_token");
                          Json.asString (Json.lookupKey jsonBookTokenMap "value")
                        with
                        | None => (w, Next NoBookToken)
                        | Some bookToken => bookStep E w params (bestSlotTime st) bookToken
                        end
                    end
              end
          end
      end
  end.

(** One round of the inner loop: the search for [currentTime] and
    [currentTableType], then the booking of the slot found. *)
Definition tryPair (E : Env) (w : World) (date : string) (params : Api.ReserveParam)
    (jsonSlotsList : list Json.Value) (currentTableType : Api.TableType)
    (currentTime : Time) : World * Step :=
  let hasTableTypePreference := (0 <? length (Api.TableTypes params))%nat in
  let st := searchSlots (nycLocation E) hasTableTypePreference currentTableType
                        currentTime jsonSlotsList in
  if 0 <=? bestSlotIndex st then bookBest E w date params st
  else (w, Next NoSlot).

(** The pairs [(k, i)] left for the next one, with the reason. *)
Abbreviation Trail := (list (Z * Z * Reason)).

(** The inner loop, over the requested times from index [i] on. *)
Fixpoint timesLoop (E : Env) (w : World) (date : string) (params : Api.ReserveParam)
    (jsonSlotsList : list Json.Value) (k : Z) (currentTableType : Api.TableType)
    (i : Z) (times : list Time) : World * Trail * option Result :=
  match times with
  | [] => (w, [], None)
  | currentTime :: rest =>
      match tryPair E w date params jsonSlotsList currentTableType currentTime with
      | (w, Return r) => (w, [], Some r)
      | (w, Next why) =>
          let '(w, trail, r) :=
            timesLoop E w date params jsonSlotsList k currentTableType (i + 1) rest in
          (w, (k, i, why) :: trail, r)
      end
  end.

(** The values of [currentTableType] over the rounds of the outer loop:
    the preferences in order, or the zero value in the single round run
    when no preference is given. *)
Definition tableTypeRounds (params : Api.ReserveParam) : list Api.TableType :=
  if (0 <? length (Api.TableTypes params))%nat then Api.TableTypes params else [""].

(** The outer loop, over the table types from index [k] on. *)
Fixpoint typesLoop (E : Env) (w : World) (date : string) (params : Api.ReserveParam)
    (jsonSlotsList : list Json.Value) (k : Z) (types : list Api.TableType)
  : World * Trail * option Result :=
  match types with
  | [] => (w, [], None)
  | currentTableType :: rest =>
      match timesLoop E w date params jsonSlotsList k currentTableType 0
                      (Api.ReservationTimes params) with
      | (w, trail, Some r) => (w, trail, Some r)
      | (w, trail, None) =>
          let '(w, trail', r) := typesLoop E w date params jsonSlotsList (k + 1) rest in
          (w, trail ++ trail', r)
      end
  end.

(** The find request, sent with two retries. *)
Definition sendFind (E : Env) (w : World) (date : string) (params : Api.ReserveParam)
  : World * (Api.Error + Http.Response) :=
  let bodyBytes := Some (findBody date params) in
  match NewRequest E "POST" findUrl bodyBytes with
  | None => (w, inl (Api.Other "net/http: cannot create request"))
  | Some request =>
      let request := findHeaders (self w) params request in
      doRequestWithRetry E w request bodyBytes 2 (Api.VenueID params)
  end.

(** The slot list read from the find response, or the error [Reserve]
    returns for it. *)
Definition readFind (venueID : Z) (response : Http.Response)
  : Api.Error + list Json.Value :=
  match Http.RespBody response with
  | Http.ReadError msg => inl (Api.Other msg)
  | Http.Text raw decoded =>
      if isCodeFail (Http.StatusCode response) then
        inl (Api.NewNetworkError "find" (Http.StatusCode response)
               (findErrorMsg raw decoded))
      else
        match Json.UnmarshalMap decoded with
        | None => inl (Api.Other "invalid JSON in find response")
        | Some jsonTopLevelMap => slotsOfFindResponse venueID jsonTopLevelMap
        end
  end.

(** What a run of [Reserve] leaves: the client, the pairs that were
    tried and left, and the result. *)
Record Run := {
  world : World;
  exhausted : Trail;
  result : Result
}.

(** The client once the cookies of the venue are loaded from the store
    (when there are none the client goes on with what it has). *)
Definition loadCookies (db : Store.DB) (w : World) (params : Api.ReserveParam) : World :=
  withAPI w (LoadCookiesFromStore db (self w) (Api.VenueID params)).1.

(** [Reserve]. *)
Definition Reserve (E : Env) (db : Store.DB) (w : World) (params : Api.ReserveParam) : Run :=
  let w := loadCookies db w params in
  match Api.ReservationTimes params with
  | [] => {| world := w; exhausted := []; result := Panicked |}
  | first :: _ =>
      let reservationTimeNYC := In first (nycLocation E) in
      let date := dateString reservationTimeNYC in
      match sendFind E w date params with
      | (w, inl err) => {| world := w; exhausted := []; result := Failed err |}
      | (w, inr response) =>
          match readFind (Api.VenueID params) response with
          | inl err => {| world := w; exhausted := []; result := Failed err |}
          | inr jsonSlotsList =>
              match typesLoop E w date params jsonSlotsList 0 (tableTypeRounds params) with
              | (w, trail, Some r) => {| world := w; exhausted := trail; result := r |}
              | (w, trail, None) =>
                  {| world := w; exhausted := trail; result := Failed Api.ErrNoTable |}
              end
          end
      end
  end.

End Resy.

(* ===================================================================== *)
(** * [main.go]: the admin token check and the dispatcher loop *)
(* ===================================================================== *)

Module Main.
Import GoStrings GoTime.

(** [validateAdminToken]: the [Authorization] header, or the [token]
    query parameter, against the configured admin token. *)
Definition validateAdminToken (r : Http.Request) (cfg : Config.Config) : bool :=
  if negb (Config.HasAdminToken cfg) then
    let token := Http.Get (Http.Query r) "token" in
    (negb (String.eqb token "") && Config.ValidateAdminToken cfg token)%bool
  else
    let authHeader := Http.Get (Http.ReqHeader r) "Authorization" in
    if String.eqb authHeader "" then
      let token := Http.Get (Http.Query r) "token" in
      Config.ValidateAdminToken cfg token
    else
      match SplitN2 authHeader " " with
      | [bearer; token] =>
          if negb (String.eqb bearer "Bearer") then false
          else Config.ValidateAdminToken cfg token
      | _ => false
      end.

(** The admin endpoints and the checks at the head of their handlers. *)
Inductive Endpoint :=
| AdminCookiesImport   (* /admin/cookies/import *)
| AdminCookies         (* /admin/cookies/{venue_id} *)
| AdminStatus.         (* /admin/status *)

Inductive Guard :=
| Rejected (status : Z) (message : string)
| Proceed.

Definition adminGuard (ep : Endpoint) (r : Http.Request) (cfg : Config.Config) : Guard :=
  let authorise :=
    if negb (validateAdminToken r cfg) then Rejected Http.StatusUnauthorized "Unauthorized"
    else Proceed in
  match ep with
  | AdminCookiesImport =>
      if negb (String.eqb (Http.Method r) "POST")
      then Rejected Http.StatusMethodNotAllowed "Method not allowed"
      else authorise
  | AdminCookies => authorise
  | AdminStatus =>
      if negb (String.eqb (Http.Method r) "GET")
      then Rejected Http.StatusMethodNotAllowed "Method not allowed"
      else authorise
  end.

(** *** The dispatcher *)

Definition maxLogLines : nat := 500.

(** The scheduler goroutine between two rounds of its loop: the store,
    the log lines, the time spent waiting, and the reservations handed
    to [Reserve] so far with the parameters built for them (oldest
    first; this list is not in the source). *)
Record Dispatcher := {
  db : Store.DB;
  logLines : list string;
  waited : Duration;
  attempted : list (Store.ScheduledReservation * Api.ReserveParam)
}.

(** [appendLog]; the time stamp in front of the message is left out. *)
Definition appendLog (d : Dispatcher) (message : string) : Dispatcher :=
  let lines := if (maxLogLines <=? length (logLines d))%nat then drop 1 (logLines d)
               else logLines d in
  {| db := db d; logLines := lines ++ [message]; waited := waited d;
     attempted := attempted d |}.

Definition withDB (d : Dispatcher) (db' : Store.DB) : Dispatcher :=
  {| db := db'; logLines := logLines d; waited := waited d; attempted := attempted d |}.

Definition wait (d : Dispatcher) (t : Duration) : Dispatcher :=
  {| db := db d; logLines := logLines d; waited := waited d + t; attempted := attempted d |}.

Definition attempt (d : Dispatcher) (res : Store.ScheduledReservation)
    (p : Api.ReserveParam) : Dispatcher :=
  {| db := db d; logLines := logLines d; waited := waited d;
     attempted := attempted d ++ [(res, p)] |}.

(** What the surroundings do in one round of the loop:
    - [cancelled]: the context is done when the round starts;
    - [saved]: the reservations that request handlers have saved since
      the round before;
    - [cancelledInWait]: the context is done before the timer of a wait
      fires;
    - [now]: the reading of the clock;
    - [savedMeanwhile]: the reservations saved while [Reserve] runs;
    - [reserveErr]: the error text [Reserve] returns, [None] for a
      booking. *)
Record Tick := {
  cancelled : bool;
  saved : list Store.ScheduledReservation;
  cancelledInWait : bool;
  now : Time;
  savedMeanwhile : list Store.ScheduledReservation;
  reserveErr : option string
}.

(** The saves of the request handlers, in turn. *)
Definition saveAll (db0 : Store.DB) (rs : list Store.ScheduledReservation) : Store.DB :=
  foldl (fun db r => (Store.SaveReservation db r).1) db0 rs.

(** The parameters built for a scheduled reservation. *)
Definition reserveParamOf (nextRes : Store.ScheduledReservation) : Api.ReserveParam :=
  let tableTypes := foldl (fun tableTypes pref => tableTypes ++ [pref : Api.TableType])
                          [] (Store.TablePreferences nextRes) in
  {| Api.VenueID := Store.VenueID nextRes;
     Api.ReservationTimes := [Store.ReservationTime nextRes];
     Api.PartySize := Store.PartySize nextRes;
     Api.LoginResp := {| Api.AuthToken := Store.AuthToken nextRes; Api.PaymentMethodID := 0 |};
     Api.TableTypes := tableTypes |}.

(** A wait on the timer and the context; [false] ends the loop. *)
Definition waitOrStop (tk : Tick) (d : Dispatcher) (t : Duration) : Dispatcher * bool :=
  if cancelledInWait tk then (appendLog d "Scheduler shutting down", false)
  else (wait d t, true).

(** One round of the loop of [handleScheduledReservations]; the
    boolean tells whether the loop goes on. *)
Definition round (tk : Tick) (d : Dispatcher) : Dispatcher * bool :=
  if cancelled tk then (appendLog d "Scheduler shutting down", false)
  else
    let d := withDB d (saveAll (db d) (saved tk)) in
    match Store.GetNextReservation (db d) with
    | inl _ | inr None => waitOrStop tk d (30 * Second)
    | inr (Some nextRes) =>
        let now := In (now tk) UTC in
        if After (Store.RunTime nextRes) now then
          let sleepDuration := Sub (Store.RunTime nextRes) now in
          let sleepDuration :=
            if 30 * Second <? sleepDuration then 30 * Second else sleepDuration in
          waitOrStop tk d sleepDuration
        else
          let d := appendLog d ("Attempting scheduled reservation " +:+ Store.ID nextRes
                                +:+ " for venue " +:+ Store.Itoa (Store.VenueID nextRes)) in
          let reserveParam := reserveParamOf nextRes in
          let d := attempt d nextRes reserveParam in
          let d := withDB d (saveAll (db d) (savedMeanwhile tk)) in
          let d :=
            match reserveErr tk with
            | Some text =>
                appendLog d ("Failed to book scheduled reservation " +:+ Store.ID nextRes
                             +:+ ": " +:+ text)
            | None =>
                appendLog d ("Successfully booked scheduled reservation " +:+ Store.ID nextRes)
            end in
          match Store.DeleteReservation (db d) (Store.ID nextRes) with
          | (db', Some _) =>
              (appendLog (withDB d db') ("Failed to delete reservation " +:+ Store.ID nextRes
                                          +:+ " from store"), true)
          | (db', None) => (withDB d db', true)
          end
    end.

(** The loop, over the rounds the surroundings allow. *)
Fixpoint run (ticks : list Tick) (d : Dispatcher) : Dispatcher :=
  match ticks with
  | [] => d
  | tk :: rest =>
      match round tk d with
      | (d, true) => run rest d
      | (d, false) => d
      end
  end.

End Main.

(* ===================================================================== *)
(** * Properties *)
(* ===================================================================== *)

(** ** Strings *)

Module GoStringsFacts.
Import GoStrings.





Lemma lowerByte_idem (c : ascii) : lowerByte (lowerByte c) = lowerByte c.
Proof.
  unfold lowerByte.
  destruct ((65 <=? nat_of_ascii c)%nat && (nat_of_ascii c <=? 90)%nat)%bool eqn:E.
  - apply andb_true_iff in E as [E1 E2].
    apply Nat.leb_le in E1, E2.
    rewrite nat_ascii_embedding by lia.
    replace (nat_of_ascii c + 32 <=? 90)%nat with false
      by (symmetry; apply Nat.leb_gt; lia).
    by rewrite andb_false_r.
  - by rewrite E.
Qed.

Lemma ToLower_idem (s : string) : ToLower (ToLower s) = ToLower s.
Proof. induction s as [|c s IH]; simpl; [done|]. by rewrite lowerByte_idem, IH. Qed.

Example Split_trailing : Split "a;b;" ";" = ["a"; "b"; ""].
Proof. reflexivity. Qed.

Example SplitN2_first_only : SplitN2 "name=va=lue" "=" = ["name"; "va=lue"].
Proof. reflexivity. Qed.

Example TrimSpace_both_ends : TrimSpace "  Path=/ " = "Path=/".
Proof. reflexivity. Qed.

Example ToLower_label : ToLower "Indoor Dining Room" = "indoor dining room".
Proof. reflexivity. Qed.

End GoStringsFacts.

(** ** Time *)

Module GoTimeFacts.
Import GoTime.

Example epoch_is_1970 : civilFromDays 0 = (1970, 1, 1) /\ daysFromCivil 1970 1 1 = 0.
Proof. split; reflexivity. Qed.

Example leap_day_2024 :
  civilFromDays (daysFromCivil 2024 2 29) = (2024, 2, 29)
  /\ civilFromDays (daysFromCivil 2024 2 29 + 1) = (2024, 3, 1).
Proof. split; reflexivity. Qed.

Example zeroTime_fields :
  (Year zeroTime, Month zeroTime, Day zeroTime, HourOf zeroTime) = (1, 1, 1, 0).
Proof. vm_compute. reflexivity. Qed.

(** Eastern standard time, five hours west of UTC. *)
Definition fixedEST : Location := {| initialOffset := -18000; tx := [] |}.

Example parse_dinner_time :
  (fun t => (Unix t, Year t, Month t, Day t, HourOf t, MinuteOf t))
    <$> ParseInLocation "2025-12-01 19:00:00" fixedEST
  = Some (1764633600, 2025, 12, 1, 19, 0).
Proof. vm_compute. reflexivity. Qed.

Example parse_rejects_bad_dates :
  ParseInLocation "2025-02-29 19:00:00" UTC = None
  /\ ParseInLocation "2025-12-01 24:00:00" UTC = None
  /\ ParseInLocation "2025-12-01T19:00:00" UTC = None.
Proof. repeat split; reflexivity. Qed.

End GoTimeFacts.

(** ** The admin token check *)

Module AdminFacts.
Import Main.

Lemma ValidateAdminToken_unset (cfg : Config.Config) (token : string) :
  Config.AdminToken cfg = "" -> Config.ValidateAdminToken cfg token = false.
Proof.
  intros H. unfold Config.ValidateAdminToken, Config.HasAdminToken.
  by rewrite H.
Qed.

Lemma validateAdminToken_unset (r : Http.Request) (cfg : Config.Config) :
  Config.AdminToken cfg = "" -> validateAdminToken r cfg = false.
Proof.
  intros H. unfold validateAdminToken.
  assert (Config.HasAdminToken cfg = false) as ->
    by (unfold Config.HasAdminToken; by rewrite H).
  simpl. rewrite ValidateAdminToken_unset by done. apply andb_false_r.
Qed.

(** C10.  When no admin token is configured ([ADMIN_TOKEN] empty),
    [ValidateAdminToken] denies every token, [validateAdminToken] is
    false whatever [Authorization] header or [token] query parameter the
    request carries, and no admin handler lets the request past its
    checks: the request is answered 401 Unauthorized (405 where the
    handler first refuses the method). *)
Theorem admin_rejected_without_token (r : Http.Request) (cfg : Config.Config) :
  Config.AdminToken cfg = "" ->
  (forall token, Config.ValidateAdminToken cfg token = false)
  /\ validateAdminToken r cfg = false
  /\ adminGuard AdminCookies r cfg = Rejected 401 "Unauthorized"
  /\ (forall ep,
        adminGuard ep r cfg = Rejected 401 "Unauthorized"
        \/ adminGuard ep r cfg = Rejected 405 "Method not allowed").
Proof.
  intros H.
  pose proof (validateAdminToken_unset r cfg H) as Hv.
  split; [intros token; by apply ValidateAdminToken_unset|].
  split; [done|].
  split; [unfold adminGuard; by rewrite Hv|].
  intros ep. unfold adminGuard. rewrite Hv. simpl.
  destruct ep; [destruct (String.eqb _ "POST") | | destruct (String.eqb _ "GET")];
    simpl; auto.
Qed.

(** A request that carries both a bearer token and a [token] parameter,
    and a configuration without admin token. *)
Definition bearerRequest : Http.Request :=
  {| Http.Method := "GET"; Http.URL := "/admin/status?token=letmein";
     Http.ReqHeader := {[ "Authorization" := ["Bearer letmein"] ]};
     Http.ReqCookies := []; Http.ReqBody := None;
     Http.Query := {[ "token" := ["letmein"] ]} |}.

Definition noTokenConfig : Config.Config :=
  {| Config.RedisURL := "localhost:6379"; Config.RedisPassword := "";
     Config.ResyAPIKey := "VbWk7s3L4KiK5fzlO7JD3Q5EYolJI7n5";
     Config.CookieSecretKey := None; Config.CookieBlockKey := None;
     Config.Port := "8090"; Config.AdminToken := "";
     Config.CookieRefreshEnabled := true;
     Config.CookieRefreshInterval := 6 * GoTime.Hour;
     Config.KnownVenueIDs := [89607; 89678; 92807] |}.

Lemma admin_rejected_without_token_witness :
  validateAdminToken bearerRequest noTokenConfig = false.
Proof.
  exact (proj1 (proj2 (admin_rejected_without_token bearerRequest noTokenConfig eq_refl))).
Defined.

End AdminFacts.

(** ** The table type filter *)

Module FilterFacts.
Import GoStrings GoStringsFacts Resy.





End FilterFacts.

(** ** The cookie harvest *)

Module CookieFacts.
Import GoStrings Resy.












(** A response with a session cookie of the anti-bot layer, a cookie of
    the site itself and a newer value for a cookie the client holds. *)
Definition quietEnv : Env :=
  {| ParseRFC1123 := fun _ => None; LoadLocation := None;
     NewRequestOK := fun _ _ => true;
     RoundTrip := fun _ _ => inl (Api.Other "no route to host") |}.

Definition plainCookie (name value : string) : Http.Cookie :=
  {| Http.Name := name; Http.Value := value; Http.Domain := ".resy.com";
     Http.Path := "/"; Http.Secure := false; Http.HttpOnly := false;
     Http.Expires := GoTime.zeroTime |}.

Definition heldCookies : API :=
  {| APIKey := "k"; Cookies := [plainCookie "visid_incap_9" "old"]; UserAgent := "" |}.

Definition challengeResponse : Http.Response :=
  {| Http.StatusCode := 403;
     Http.RespHeader :=
       {[ "X-Cdn" := ["Imperva"];
          "Set-Cookie" := ["incap_ses_123=abc; Path=/; Secure";
                           "sessionid=zzz; Path=/";
                           " visid_incap_9=new; Domain=.resy.com; HttpOnly"] ]};
     Http.RespBody := Http.Text "" None |}.

Example harvest_challengeResponse :
  (fun c => (Http.Name c, Http.Value c, Http.Secure c, Http.HttpOnly c))
    <$> Cookies (extractCookiesFromResponse quietEnv heldCookies challengeResponse)
  = [("visid_incap_9", "new", false, true); ("incap_ses_123", "abc", true, false)].
Proof. vm_compute. reflexivity. Qed.


End CookieFacts.

(** ** Retries on a challenge *)

Module RetryFacts.
Import GoTime Resy.

Section AllChallenges.
Context (E : Env) (maxRetries : Z) (original : Http.Request)
        (bodyBytes : option Http.Payload).
Hypothesis rebuild :
  bodyBytes <> None -> NewRequestOK E (Http.Method original) (Http.URL original) = true.
Hypothesis challenged :
  forall n r, exists resp, RoundTrip E n r = inr resp /\ isImpervaChallenge resp = true.

Lemma retryLoop_all_challenges (left : nat) :
  forall (attempt : Z) (w : World) (req : Http.Request) (last : bool),
    0 <= attempt <= maxRetries ->
    left = Z.to_nat (maxRetries + 1 - attempt) ->
    let r := retryLoop E left attempt maxRetries original bodyBytes w req last in
    r.2 = inl Api.ErrImperva
    /\ length (sent r.1) = (length (sent w) + left)%nat
    /\ slept r.1 = slept w + (maxRetries + 1 - Z.max attempt 1) * Second.
Proof.
  induction left as [|left IH]; intros attempt w req last Hrange Hleft; [lia|].
  cbn [retryLoop].
  set (prepared := if 0 <? attempt then _ else _).
  assert (exists w1 req1, prepared = Some (w1, req1)
            /\ sent w1 = sent w
            /\ slept w1 = slept w + (if 0 <? attempt then Second else 0)) as
      (w1 & req1 & -> & Hsent & Hslept).
  { subst prepared. destruct (0 <? attempt).
    - destruct bodyBytes as [b|] eqn:Hb.
      + unfold NewRequest. rewrite rebuild by done.
        eexists _, _. split; [reflexivity|]. simpl. split; [done|lia].
      + eexists _, _. split; [reflexivity|]. simpl. split; [done|lia].
    - eexists _, _. split; [reflexivity|]. split; [done|lia]. }
  unfold Do.
  destruct (challenged (length (sent w1)) req1) as (resp & -> & ->).
  destruct (attempt <? maxRetries) eqn:Hlt.
  - apply Z.ltb_lt in Hlt.
    match goal with
    | |- context [retryLoop E left _ _ _ _ ?w' _ _] =>
        destruct (IH (attempt + 1) w' req1 true) as (H1 & H2 & H3); [lia|lia|]
    end.
    split; [exact H1|]. split.
    + rewrite H2. simpl. rewrite length_app, Hsent. simpl. lia.
    + rewrite H3. simpl. rewrite Hslept.
      unfold Second.
      destruct (0 <? attempt) eqn:H0; [apply Z.ltb_lt in H0 | apply Z.ltb_ge in H0]; lia.
  - apply Z.ltb_ge in Hlt. simpl.
    split; [done|]. split.
    + rewrite length_app, Hsent. simpl. lia.
    + rewrite Hslept.
      unfold Second.
      destruct (0 <? attempt) eqn:H0; [apply Z.ltb_lt in H0 | apply Z.ltb_ge in H0]; lia.
Qed.

End AllChallenges.

(** C4.  For every [maxRetries >= 0], when every request is answered
    and every answer is a challenge, [doRequestWithRetry] sends the
    request [maxRetries + 1] times ([maxRetries] retries, each after a
    pause of one second) and returns [ErrImperva], not an error of the
    transport.  (A request with a body is built anew for each retry
    from the method and the URL of the original; [net/http] accepts
    them again.) *)
Theorem challenges_exhaust_retries (E : Env) (w : World) (req : Http.Request)
    (bodyBytes : option Http.Payload) (maxRetries venueID : Z) :
  0 <= maxRetries ->
  (bodyBytes <> None -> NewRequestOK E (Http.Method req) (Http.URL req) = true) ->
  (forall n r, exists resp, RoundTrip E n r = inr resp /\ isImpervaChallenge resp = true) ->
  let r := doRequestWithRetry E w req bodyBytes maxRetries venueID in
  r.2 = inl Api.ErrImperva
  /\ length (sent r.1) = (length (sent w) + Z.to_nat (maxRetries + 1))%nat
  /\ slept r.1 = slept w + maxRetries * Second.
Proof.
  intros Hm Hrebuild Hch. unfold doRequestWithRetry.
  destruct (retryLoop_all_challenges E maxRetries req bodyBytes Hrebuild Hch
              (Z.to_nat (maxRetries + 1)) 0 w req false) as (H1 & H2 & H3);
    [lia | f_equal; lia |].
  split; [exact H1|]. split; [exact H2|]. rewrite H3. lia.
Qed.

(** The find request of [Reserve] is built from a constant method and
    URL, so its rebuild succeeds whenever the request itself could be
    built: under steady challenges the find step sends three requests
    and ends in [ErrImperva]. *)
Lemma addCookies_target (cs : list Http.Cookie) (req : Http.Request) :
  Http.Method (foldl Http.AddCookie req cs) = Http.Method req
  /\ Http.URL (foldl Http.AddCookie req cs) = Http.URL req.
Proof.
  revert req; induction cs as [|c cs IH]; intros req; simpl; [done|].
  destruct (IH (Http.AddCookie req c)) as [-> ->]. done.
Qed.

Lemma findHeaders_target (a : API) (params : Api.ReserveParam) (request : Http.Request) :
  Http.Method (findHeaders a params request) = Http.Method request
  /\ Http.URL (findHeaders a params request) = Http.URL request.
Proof.
  unfold findHeaders, withUserAgentFallback, addCookiesToRequest.
  repeat match goal with |- context [if ?b then _ else _] => destruct b end;
    simpl;
    match goal with
    | |- context [foldl Http.AddCookie ?r ?cs] =>
        destruct (addCookies_target cs r) as [-> ->]
    end; done.
Qed.

Lemma sendFind_all_challenges (E : Env) (w : World) (date : string)
    (params : Api.ReserveParam) :
  NewRequestOK E "POST" findUrl = true ->
  (forall n r, exists resp, RoundTrip E n r = inr resp /\ isImpervaChallenge resp = true) ->
  (sendFind E w date params).2 = inl Api.ErrImperva
  /\ length (sent (sendFind E w date params).1) = (length (sent w) + 3)%nat.
Proof.
  intros Hok Hch. unfold sendFind, NewRequest. rewrite Hok.
  unfold doRequestWithRetry.
  match goal with
  | |- context [retryLoop E ?n 0 2 ?orig ?body w ?req false] =>
      assert (body <> None ->
              NewRequestOK E (Http.Method orig) (Http.URL orig) = true) as Hrebuild;
        [|destruct (retryLoop_all_challenges E 2 orig body Hrebuild Hch n 0 w req false)
            as (H1 & H2 & _); [lia | reflexivity | by split]]
  end.
  intros _.
  match goal with
  | |- context [findHeaders ?a ?p ?r] => destruct (findHeaders_target a p r) as [-> ->]
  end.
  exact Hok.
Qed.

(** A server that answers every request with a challenge. *)
Definition wallEnv : Env :=
  {| ParseRFC1123 := fun _ => None; LoadLocation := None;
     NewRequestOK := fun _ _ => true;
     RoundTrip := fun _ _ => inr CookieFacts.challengeResponse |}.

Definition freshWorld : World :=
  {| self := CookieFacts.heldCookies; sent := []; slept := 0 |}.

Definition getRequest : Http.Request :=
  {| Http.Method := "GET"; Http.URL := "https://api.resy.com/3/venue";
     Http.ReqHeader := ∅; Http.ReqCookies := []; Http.ReqBody := None;
     Http.Query := ∅ |}.

Lemma challenges_exhaust_retries_witness :
  (doRequestWithRetry wallEnv freshWorld getRequest None 2 89607).2 = inl Api.ErrImperva
  /\ length (sent (doRequestWithRetry wallEnv freshWorld getRequest None 2 89607).1) = 3%nat.
Proof.
  destruct (challenges_exhaust_retries wallEnv freshWorld getRequest None 2 89607)
    as (H1 & H2 & _).
  - lia.
  - intros _. reflexivity.
  - intros n r. exists CookieFacts.challengeResponse. split; reflexivity.
  - split; [exact H1 | exact H2].
Defined.

End RetryFacts.

(** ** The slot search *)

Module SearchFacts.
Import GoTime Resy.

(** The difference computed by the search is the distance of the two
    instants, as long as that fits a [Duration]. *)
Lemma absTimeDiff_exact (t u : Time) :
  Z.abs (unixNano t - unixNano u) <= maxDuration ->
  absTimeDiff t u = Z.abs (unixNano t - unixNano u).
Proof.
  unfold absTimeDiff, Sub, negDuration, maxDuration, minDuration. intros H.
  repeat match goal with
         | |- context [?a <? ?b] => destruct (Z.ltb_spec a b)
         | |- context [?a =? ?b] => destruct (Z.eqb_spec a b)
         end; lia.
Qed.

Section Search.
Context (nyc : Location) (hasTableTypePreference : bool)
        (currentTableType : Api.TableType) (currentTime : Time).

Local Abbreviation currentTimeNYC := (In currentTime nyc).

(** A candidate: an entry of the slot list that is an object with a
    readable start time on the requested local date and a [config]
    that passes the table type test.  The search skips every other
    entry. *)
Definition candidate (slot : Json.Value) : option (Json.Map * Time * Json.Map) :=
  jsonSlotMap ← Json.asMap (Some slot);
  slotTime ← slotStart nyc jsonSlotMap;
  jsonConfigMap ← Json.asMap (Json.lookupKey jsonSlotMap "config");
  if (sameDate slotTime currentTimeNYC
      && tableTypeAccepted hasTableTypePreference currentTableType jsonConfigMap)%bool
  then Some (jsonSlotMap, slotTime, jsonConfigMap)
  else None.

(** A candidate on the requested hour and minute. *)
Definition isExact (slot : Json.Value) : bool :=
  match candidate slot with
  | Some (_, slotTime, _) => timeMatches slotTime currentTimeNYC
  | None => false
  end.

(** The time difference of a candidate. *)
Definition delta (slot : Json.Value) : option Duration :=
  match candidate slot with
  | Some (_, slotTime, _) => Some (absTimeDiff slotTime currentTimeNYC)
  | None => None
  end.

Definition exactMatch (st : Search) (j : Z) (jsonSlotMap : Json.Map) (slotTime : Time)
    (jsonConfigMap : Json.Map) : Search :=
  {| bestSlot := Some jsonSlotMap; bestSlotIndex := j; bestSlotTime := slotTime;
     bestSlotConfigToken := keepToken jsonConfigMap (bestSlotConfigToken st);
     bestTimeDiff := bestTimeDiff st; foundExactMatch := true; visited := visited st |}.

Definition closer (st : Search) (j : Z) (jsonSlotMap : Json.Map) (slotTime : Time)
    (jsonConfigMap : Json.Map) : Search :=
  {| bestSlot := Some jsonSlotMap; bestSlotIndex := j; bestSlotTime := slotTime;
     bestSlotConfigToken := keepToken jsonConfigMap (bestSlotConfigToken st);
     bestTimeDiff := absTimeDiff slotTime currentTimeNYC;
     foundExactMatch := foundExactMatch st; visited := visited st |}.

Local Abbreviation evalSlot' :=
  (evalSlot nyc hasTableTypePreference currentTableType currentTime).
Local Abbreviation slotLoop' :=
  (slotLoop nyc hasTableTypePreference currentTableType currentTime).

Lemma evalSlot_skip (j : Z) (slot : Json.Value) (st : Search) :
  candidate slot = None -> evalSlot' j slot st = (st, Continue).
Proof.
  unfold candidate, evalSlot.
  destruct (Json.asMap (Some slot)) as [m|]; simpl; [|done].
  destruct (slotStart nyc m) as [t|]; simpl; [|done].
  destruct (sameDate t currentTimeNYC); simpl.
  - destruct (Json.asMap (Json.lookupKey m "config")) as [cfg|]; simpl; [|done].
    destruct (tableTypeAccepted _ _ cfg); simpl; done.
  - destruct (Json.asMap (Json.lookupKey m "config")); done.
Qed.

Lemma evalSlot_candidate (j : Z) (slot : Json.Value) (st : Search)
    (m : Json.Map) (t : Time) (cfg : Json.Map) :
  candidate slot = Some (m, t, cfg) ->
  evalSlot' j slot st =
    if timeMatches t currentTimeNYC then (exactMatch st j m t cfg, Break)
    else if (negb (foundExactMatch st)
             && (absTimeDiff t currentTimeNYC <=? maxTimeDiff)
             && (absTimeDiff t currentTimeNYC <? bestTimeDiff st))%bool
         then (closer st j m t cfg, Continue)
         else (st, Continue).
Proof.
  unfold candidate, evalSlot.
  destruct (Json.asMap (Some slot)) as [m'|]; simpl; [|done].
  destruct (slotStart nyc m') as [t'|]; simpl; [|done].
  destruct (Json.asMap (Json.lookupKey m' "config")) as [cfg'|]; simpl; [|done].
  destruct (sameDate t' currentTimeNYC); simpl; [|done].
  destruct (tableTypeAccepted _ _ cfg'); simpl; [|done].
  intros [= -> -> ->]. unfold exactMatch, closer.
  destruct (timeMatches t currentTimeNYC); [reflexivity|].
  destruct (foundExactMatch st); simpl; [reflexivity|].
  destruct (_ <=? _); simpl; [|reflexivity].
  destruct (_ <? _); reflexivity.
Qed.

(** What the search knows after a run of entries none of which is an
    exact candidate: no exact match is noted, and the best slot noted is
    the first of the candidates at the least distance, if that distance
    is within the window. *)
Record NearBest (seen : list Json.Value) (st : Search) : Prop := {
  nb_noexact : foundExactMatch st = false;
  nb_none :
    bestSlotIndex st = -1 ->
    bestTimeDiff st = 31 * Minute
    /\ forall slot d, slot ∈ seen -> delta slot = Some d -> maxTimeDiff < d;
  nb_some :
    bestSlotIndex st <> -1 ->
    exists i slot m cfg,
      bestSlotIndex st = Z.of_nat i
      /\ seen !! i = Some slot
      /\ candidate slot = Some (m, bestSlotTime st, cfg)
      /\ bestSlot st = Some m
      /\ bestTimeDiff st = absTimeDiff (bestSlotTime st) currentTimeNYC
      /\ bestTimeDiff st <= maxTimeDiff
      /\ (forall k slot' d, seen !! k = Some slot' -> delta slot' = Some d ->
            bestTimeDiff st <= d /\ ((k < i)%nat -> bestTimeDiff st < d))
}.

Lemma NearBest_start : NearBest [] searchStart.
Proof.
  split; simpl; [done| |done].
  intros _. split; [done|]. intros slot d H. by apply elem_of_nil in H.
Qed.

(** One more entry that is not an exact candidate. *)
Lemma NearBest_step (seen : list Json.Value) (st : Search) (slot : Json.Value) :
  NearBest seen st -> isExact slot = false ->
  exists st',
    evalSlot' (Z.of_nat (length seen)) slot (visit (Z.of_nat (length seen)) st)
      = (st', Continue)
    /\ NearBest (seen ++ [slot]) st'
    /\ visited st' = visited st ++ [Z.of_nat (length seen)].
Proof.
  intros [Hne Hnone Hsome] Hex.
  set (j := Z.of_nat (length seen)).
  destruct (candidate slot) as [[[m t] cfg]|] eqn:Hc.
  2:{ exists (visit j st). rewrite evalSlot_skip by done.
      split; [done|]. split; [|done].
      split; simpl; [done| |].
      - intros Hi. destruct (Hnone Hi) as [Hb Hall]. split; [done|].
        intros s d [Hs| ->%list_elem_of_singleton]%elem_of_app Hd; [by eapply Hall|].
        unfold delta in Hd. by rewrite Hc in Hd.
      - intros Hi. destruct (Hsome Hi) as (i & s & m & cfg & H1 & H2 & H3 & H4 & H5 & H6 & H7).
        exists i, s, m, cfg. repeat split; try done.
        + by apply lookup_app_l_Some.
        + destruct (decide (k < length seen)%nat) as [Hk|Hk].
          * rewrite lookup_app_l in H by done. by eapply H7.
          * rewrite lookup_app_r in H by lia.
            apply list_lookup_singleton_Some in H as [_ <-].
            unfold delta in H0. by rewrite Hc in H0.
        + destruct (decide (k < length seen)%nat) as [Hk|Hk].
          * rewrite lookup_app_l in H by done. by eapply H7.
          * rewrite lookup_app_r in H by lia.
            apply list_lookup_singleton_Some in H as [_ <-].
            unfold delta in H0. by rewrite Hc in H0. }
  assert (timeMatches t currentTimeNYC = false) as Htm
    by (unfold isExact in Hex; by rewrite Hc in Hex).
  assert (delta slot = Some (absTimeDiff t currentTimeNYC)) as Hd
    by (unfold delta; by rewrite Hc).
  rewrite (evalSlot_candidate _ _ _ _ _ _ Hc), Htm. simpl. rewrite Hne. simpl.
  set (d := absTimeDiff t currentTimeNYC) in *.
  destruct (Z.leb_spec d maxTimeDiff) as [Hle|Hgt]; simpl.
  - destruct (Z.ltb_spec d (bestTimeDiff st)) as [Hlt|Hge].
    + (* the entry is closer than everything seen *)
      exists (closer (visit j st) j m t cfg).
      split; [done|]. split; [|done].
      split; simpl; [done| |].
      * intros Hj. subst j. lia.
      * intros _. exists (length seen), slot, m, cfg.
        split; [done|]. split; [by apply list_lookup_middle|].
        split; [done|]. split; [done|]. split; [done|]. split; [done|].
        intros k s' d' Hk Hd'.
        destruct (decide (k < length seen)%nat) as [Hlt'|Hge'].
        -- rewrite lookup_app_l in Hk by done.
           assert (d < d').
           { destruct (decide (bestSlotIndex st = -1)) as [Hi|Hi].
             - destruct (Hnone Hi) as [Hb Hall].
               assert (maxTimeDiff < d') by (eapply Hall; [by apply (list_elem_of_lookup_2 _ k)|done]).
               lia.
             - destruct (Hsome Hi) as (i & s & m0 & cfg0 & _ & _ & _ & _ & _ & _ & H7).
               destruct (H7 k s' d' Hk Hd'). lia. }
           fold d. lia.
        -- rewrite lookup_app_r in Hk by lia.
           apply list_lookup_singleton_Some in Hk as [Hk <-].
           rewrite Hd in Hd'. injection Hd' as <-. fold d. lia.
    + (* the entry is within the window but not closer *)
      exists (visit j st). split; [done|]. split; [|done].
      split; simpl; [done| |].
      * intros Hi. destruct (Hnone Hi) as [Hb Hall].
        rewrite Hb in Hge. unfold maxTimeDiff, Minute, Second in *. lia.
      * intros Hi. destruct (Hsome Hi) as (i & s & m0 & cfg0 & H1 & H2 & H3 & H4 & H5 & H6 & H7).
        exists i, s, m0, cfg0.
        pose proof (lookup_lt_Some _ _ _ H2) as Hilt.
        split; [done|]. split; [by apply lookup_app_l_Some|].
        split; [done|]. split; [done|]. split; [done|]. split; [done|].
        intros k s' d' Hk Hd'.
        destruct (decide (k < length seen)%nat) as [Hlt'|Hge'].
        -- rewrite lookup_app_l in Hk by done. by eapply H7.
        -- rewrite lookup_app_r in Hk by lia.
           apply list_lookup_singleton_Some in Hk as [Hk <-].
           rewrite Hd in Hd'. injection Hd' as <-. fold d. split; [lia|lia].
  - (* the entry is outside the window *)
    exists (visit j st). split; [done|]. split; [|done].
    split; simpl; [done| |].
    + intros Hi. destruct (Hnone Hi) as [Hb Hall]. split; [done|].
      intros s d' [Hs| ->%list_elem_of_singleton]%elem_of_app Hd'; [by eapply Hall|].
      rewrite Hd in Hd'. injection Hd' as <-. done.
    + intros Hi. destruct (Hsome Hi) as (i & s & m0 & cfg0 & H1 & H2 & H3 & H4 & H5 & H6 & H7).
      exists i, s, m0, cfg0.
      pose proof (lookup_lt_Some _ _ _ H2) as Hilt.
      split; [done|]. split; [by apply lookup_app_l_Some|].
      split; [done|]. split; [done|]. split; [done|]. split; [done|].
      intros k s' d' Hk Hd'.
      destruct (decide (k < length seen)%nat) as [Hlt'|Hge'].
      * rewrite lookup_app_l in Hk by done. by eapply H7.
      * rewrite lookup_app_r in Hk by lia.
        apply list_lookup_singleton_Some in Hk as [Hk <-].
        rewrite Hd in Hd'. injection Hd' as <-. fold d. split; lia.
Qed.


(** The loop over a run of entries without exact candidate goes
    through all of them. *)
Lemma slotLoop_nonexact (pre : list Json.Value) :
  forall (seen rest : list Json.Value) (st : Search),
    NearBest seen st ->
    (forall s, s ∈ pre -> isExact s = false) ->
    let st' := slotLoop' (Z.of_nat (length seen)) pre st in
    slotLoop' (Z.of_nat (length seen)) (pre ++ rest) st
      = slotLoop' (Z.of_nat (length (seen ++ pre))) rest st'
    /\ NearBest (seen ++ pre) st'
    /\ visited st' = visited st ++ seqZ (Z.of_nat (length seen)) (Z.of_nat (length pre)).
Proof.
  induction pre as [|slot pre IH]; intros seen rest st Hnb Hpre; simpl.
  - rewrite !app_nil_r. by split.
  - destruct (NearBest_step seen st slot Hnb) as (st1 & -> & Hnb1 & Hv1).
    { apply Hpre. apply list_elem_of_here. }
    destruct (IH (seen ++ [slot]) rest st1 Hnb1) as (H1 & H2 & H3).
    { intros s Hs. apply Hpre. by apply list_elem_of_further. }
    replace (Z.of_nat (length seen) + 1) with (Z.of_nat (length (seen ++ [slot])))
      by (rewrite length_app; simpl; lia).
    rewrite <- !(assoc_L (++) seen [slot] pre) in *. simpl in *.
    split; [exact H1|]. split; [exact H2|].
    rewrite H3, Hv1, <- (assoc_L (++)). f_equal.
    rewrite length_app. simpl.
    replace (Z.of_nat (S (length pre))) with (Z.succ (Z.of_nat (length pre))) by lia.
    symmetry. rewrite seqZ_cons by lia. f_equal. f_equal; lia.
Qed.

Lemma search_nonexact (pre rest : list Json.Value) :
  (forall s, s ∈ pre -> isExact s = false) ->
  let st' := slotLoop' 0 pre searchStart in
  slotLoop' 0 (pre ++ rest) searchStart = slotLoop' (Z.of_nat (length pre)) rest st'
  /\ NearBest pre st'
  /\ visited st' = seqZ 0 (Z.of_nat (length pre)).
Proof.
  intros Hpre.
  exact (slotLoop_nonexact pre [] rest searchStart NearBest_start Hpre).
Qed.


(** The search on a list whose first exact candidate is [slot]. *)
Lemma search_exact (pre suf : list Json.Value) (slot : Json.Value)
    (m : Json.Map) (t : Time) (cfg : Json.Map) :
  (forall s, s ∈ pre -> isExact s = false) ->
  candidate slot = Some (m, t, cfg) ->
  timeMatches t currentTimeNYC = true ->
  exists st,
    NearBest pre st
    /\ visited st = seqZ 0 (Z.of_nat (length pre))
    /\ searchSlots nyc hasTableTypePreference currentTableType currentTime
         (pre ++ slot :: suf)
       = exactMatch (visit (Z.of_nat (length pre)) st) (Z.of_nat (length pre)) m t cfg.
Proof.
  intros Hpre Hc Ht. unfold searchSlots.
  destruct (search_nonexact pre (slot :: suf) Hpre) as (H1 & H2 & H3).
  exists (slotLoop' 0 pre searchStart).
  split; [exact H2|]. split; [exact H3|].
  rewrite H1. simpl.
  by rewrite (evalSlot_candidate _ _ _ _ _ _ Hc), Ht.
Qed.

(** C2.  When [slot] is the first entry of the list that is a candidate
    (on the requested date, passing the table type filter) whose local
    hour and minute equal those of the requested time, the search
    returns it, whatever precedes it, closer or not, and stops there:
    the entries after it are not looked at and do not matter. *)
Theorem exact_match_wins (pre suf : list Json.Value) (slot : Json.Value)
    (m : Json.Map) (t : Time) (cfg : Json.Map) :
  (forall s, s ∈ pre -> isExact s = false) ->
  candidate slot = Some (m, t, cfg) ->
  HourOf t = HourOf currentTimeNYC ->
  MinuteOf t = MinuteOf currentTimeNYC ->
  let found := searchSlots nyc hasTableTypePreference currentTableType currentTime
                 (pre ++ slot :: suf) in
  bestSlotIndex found = Z.of_nat (length pre)
  /\ bestSlot found = Some m
  /\ bestSlotTime found = t
  /\ foundExactMatch found = true
  /\ visited found = seqZ 0 (Z.of_nat (length pre) + 1)
  /\ found = searchSlots nyc hasTableTypePreference currentTableType currentTime
               (pre ++ [slot]).
Proof.
  intros Hpre Hc Hh Hm found.
  assert (timeMatches t currentTimeNYC = true) as Ht.
  { unfold timeMatches. rewrite Hh, Hm, !Z.eqb_refl. done. }
  destruct (search_exact pre suf slot m t cfg Hpre Hc Ht) as (st & _ & Hv & Hs).
  destruct (search_exact pre [] slot m t cfg Hpre Hc Ht) as (st' & _ & _ & Hs').
  split; [|split; [|split; [|split; [|split]]]];
    try (subst found; rewrite Hs; reflexivity).
  - subst found. rewrite Hs. simpl. rewrite Hv. rewrite seqZ_app by lia. simpl. done.
  - fold found. unfold found, searchSlots.
    destruct (search_nonexact pre (slot :: suf) Hpre) as (-> & _).
    destruct (search_nonexact pre [slot] Hpre) as (-> & _).
    simpl. by rewrite (evalSlot_candidate _ _ _ _ _ _ Hc), Ht.
Qed.


End Search.

(** *** The search at work *)

(** New York in 2025: standard time, daylight time from March 9,
    07:00 UTC, standard time again from November 2, 06:00 UTC. *)
Definition newYork2025 : Location :=
  {| initialOffset := -18000;
     tx := [ {| when := 1741503600; offset := -14400 |};
             {| when := 1762063200; offset := -18000 |} ] |}.

Definition slotAt (start type token : string) : Json.Value :=
  Json.Object [("date", Json.Object [("start", Json.Str start)]);
               ("config", Json.Object [("type", Json.Str type); ("token", Json.Str token)])].

(** December 1, 2025, 19:00:40 in New York. *)
Definition sevenPM40 : Time := {| unixNano := 1764633640 * Second; loc := UTC |}.

(** December 1, 2025, 19:00:00 in New York. *)
Definition sevenPM : Time := {| unixNano := 1764633600 * Second; loc := UTC |}.

Example search_takes_nearest :
  let found := searchSlots newYork2025 false "" sevenPM
                 [slotAt "2025-12-01 18:45:00" "Dining Room" "a";
                  slotAt "2025-12-01 19:20:00" "Patio" "b";
                  slotAt "2025-12-02 19:00:00" "Patio" "c";
                  slotAt "2025-12-01 19:15:00" "Bar" "d"] in
  (bestSlotIndex found, bestTimeDiff found, bestSlotConfigToken found, visited found)
  = (0, 15 * Minute, "a", [0; 1; 2; 3]).
Proof. vm_compute. reflexivity. Qed.

Example search_boundary_included :
  bestSlotIndex (searchSlots newYork2025 false "" sevenPM
                   [slotAt "2025-12-01 19:30:00" "Dining Room" "a"]) = 0
  /\ bestSlotIndex (searchSlots newYork2025 false "" sevenPM
                      [slotAt "2025-12-01 19:31:00" "Dining Room" "a"]) = -1.
Proof. split; vm_compute; reflexivity. Qed.

(** The entry at 19:01 is 20 seconds from the requested 19:00:40, the
    exact candidate at 19:00 is 40 seconds from it. *)
Lemma exact_match_wins_witness :
  bestSlotIndex (searchSlots newYork2025 false "" sevenPM40
                   ([slotAt "2025-12-01 19:01:00" "Patio" "a"]
                    ++ slotAt "2025-12-01 19:00:00" "Dining Room" "b"
                    :: [slotAt "2025-12-01 19:00:00" "Bar" "c"])) = 1.
Proof.
  refine (proj1 (exact_match_wins newYork2025 false "" sevenPM40
                   [slotAt "2025-12-01 19:01:00" "Patio" "a"]
                   [slotAt "2025-12-01 19:00:00" "Bar" "c"]
                   (slotAt "2025-12-01 19:00:00" "Dining Room" "b")
                   [("date", Json.Object [("start", Json.Str "2025-12-01 19:00:00")]);
                    ("config", Json.Object [("type", Json.Str "Dining Room");
                                            ("token", Json.Str "b")])]
                   {| unixNano := 1764633600 * Second; loc := newYork2025 |}
                   [("type", Json.Str "Dining Room"); ("token", Json.Str "b")]
                   _ _ _ _)).
  - intros s Hs. apply list_elem_of_singleton in Hs. subst s. vm_compute. reflexivity.
  - vm_compute. reflexivity.
  - vm_compute. reflexivity.
  - vm_compute. reflexivity.
Defined.


End SearchFacts.

(** ** The pairs of table type and requested time *)

Module ReserveFacts.
Import GoTime Resy.

(** The Cartesian combination of the rounds of the outer loop (the table
    types, or the single round without preference) and of the inner
    loop (the requested times), in the order the loops visit it. *)
Definition allPairs (params : Api.ReserveParam) : list (Z * Z) :=
  k ← seqZ 0 (Z.of_nat (length (tableTypeRounds params)));
  (fun i => (k, i)) <$> seqZ 0 (Z.of_nat (length (Api.ReservationTimes params))).

Lemma tableTypeRounds_nonempty (params : Api.ReserveParam) :
  (0 < length (tableTypeRounds params))%nat.
Proof.
  unfold tableTypeRounds.
  destruct (Api.TableTypes params); simpl; lia.
Qed.

Section Loops.
Context (E : Env) (date : string) (params : Api.ReserveParam)
        (jsonSlotsList : list Json.Value).

Local Abbreviation times := (Api.ReservationTimes params).

(** The inner loop: when it runs to its end it has left every requested
    time; when it makes [Reserve] return it has left fewer. *)
Lemma timesLoop_trail (k : Z) (currentTableType : Api.TableType) (ts : list Time) :
  forall (i : Z) (w w' : World) (trail : Trail) (r : option Result),
    timesLoop E w date params jsonSlotsList k currentTableType i ts = (w', trail, r) ->
    match r with
    | None => trail.*1 = (fun i' => (k, i')) <$> seqZ i (Z.of_nat (length ts))
    | Some _ => (length trail < length ts)%nat
    end.
Proof.
  induction ts as [|t ts IH]; intros i w w' trail r; simpl.
  - intros [= <- <- <-]. done.
  - destruct (tryPair E w date params jsonSlotsList currentTableType t) as [w1 [why|res]].
    + destruct (timesLoop E w1 date params jsonSlotsList k currentTableType (i + 1) ts)
        as [[w2 trail2] r2] eqn:Hrest.
      intros [= <- <- <-]. specialize (IH _ _ _ _ _ Hrest).
      destruct r2; [simpl; lia|].
      rewrite fmap_cons, IH.
      replace (Z.of_nat (length (t :: ts))) with (Z.succ (Z.of_nat (length ts)))
        by (simpl; lia).
      rewrite (seqZ_cons i) by lia. rewrite fmap_cons. simpl. f_equal. f_equal. f_equal; lia.
    + intros [= <- <- <-]. simpl. lia.
Qed.

(** The outer loop, likewise. *)
Lemma typesLoop_trail (types : list Api.TableType) :
  forall (k : Z) (w w' : World) (trail : Trail) (r : option Result),
    typesLoop E w date params jsonSlotsList k types = (w', trail, r) ->
    match r with
    | None =>
        trail.*1 = (k' ← seqZ k (Z.of_nat (length types));
                    (fun i => (k', i)) <$> seqZ 0 (Z.of_nat (length times)))
    | Some _ => (length trail < length types * length times)%nat
    end.
Proof.
  induction types as [|tt types IH]; intros k w w' trail r; simpl.
  - intros [= <- <- <-]. done.
  - destruct (timesLoop E w date params jsonSlotsList k tt 0 times)
      as [[w1 trail1] r1] eqn:Hinner.
    pose proof (timesLoop_trail _ _ _ _ _ _ _ _ Hinner) as H1.
    destruct r1 as [res|].
    + intros [= <- <- <-]. lia.
    + destruct (typesLoop E w1 date params jsonSlotsList (k + 1) types)
        as [[w2 trail2] r2] eqn:Hrest.
      intros [= <- <- <-]. specialize (IH _ _ _ _ _ Hrest).
      assert (length trail1 = length times) as Hlen.
      { rewrite <- (length_fmap fst), H1, length_fmap, length_seqZ. lia. }
      destruct r2.
      * rewrite length_app. lia.
      * rewrite fmap_app, H1, IH.
        replace (Z.of_nat (S (length types))) with (Z.succ (Z.of_nat (length types))) by lia.
        rewrite (seqZ_cons k) by lia. simpl.
        replace (Z.pred (Z.succ (Z.of_nat (length types)))) with (Z.of_nat (length types)) by lia.
        replace (Z.succ k) with (k + 1) by lia. done.
Qed.

(** On an empty slot list every pair is left for want of a slot. *)
Lemma timesLoop_no_slots (k : Z) (currentTableType : Api.TableType) (ts : list Time) :
  jsonSlotsList = [] ->
  forall (i : Z) (w : World),
    exists trail,
      timesLoop E w date params jsonSlotsList k currentTableType i ts = (w, trail, None)
      /\ Forall (fun e => e.2 = NoSlot) trail.
Proof.
  intros ->. induction ts as [|t ts IH]; intros i w; simpl.
  - by exists [].
  - destruct (IH (i + 1) w) as (trail & -> & Hall).
    exists ((k, i, NoSlot) :: trail). split; [done|]. by constructor.
Qed.

Lemma typesLoop_no_slots (types : list Api.TableType) :
  jsonSlotsList = [] ->
  forall (k : Z) (w : World),
    exists trail,
      typesLoop E w date params jsonSlotsList k types = (w, trail, None)
      /\ Forall (fun e => e.2 = NoSlot) trail.
Proof.
  intros Hempty. induction types as [|tt types IH]; intros k w; simpl.
  - by exists [].
  - destruct (timesLoop_no_slots k tt times Hempty 0 w) as (trail1 & -> & H1).
    destruct (IH (k + 1) w) as (trail2 & -> & H2).
    exists (trail1 ++ trail2). split; [done|]. by apply Forall_app.
Qed.

End Loops.

Lemma length_pairs (n m : nat) (k : Z) :
  length (k' ← seqZ k (Z.of_nat n); (fun i => (k', i)) <$> seqZ 0 (Z.of_nat m))
  = (n * m)%nat.
Proof.
  revert k; induction n as [|n IH]; intros k; [done|].
  replace (Z.of_nat (S n)) with (Z.succ (Z.of_nat n)) by lia.
  rewrite (seqZ_cons k) by lia. simpl.
  rewrite length_app, length_fmap, length_seqZ.
  replace (Z.pred (Z.succ (Z.of_nat n))) with (Z.of_nat n) by lia.
  rewrite IH. lia.
Qed.

Lemma length_allPairs (params : Api.ReserveParam) :
  length (allPairs params)
  = (length (tableTypeRounds params) * length (Api.ReservationTimes params))%nat.
Proof. apply length_pairs. Qed.

(** A book response with a failing status, 402 among them, leaves the
    pair for the next one. *)
Lemma bookStep_failing_status (E : Env) (w : World) (params : Api.ReserveParam)
    (bestSlotTime : Time) (bookToken : string) (requestBook : Http.Request)
    (responseBook : Http.Response) :
  NewRequest E "POST" bookUrl (Some (bookBody bookToken params)) = Some requestBook ->
  RoundTrip E (length (sent w)) (bookRequest (self w) params requestBook) = inr responseBook ->
  isCodeFail (Http.StatusCode responseBook) = true ->
  (bookStep E w params bestSlotTime bookToken).2
  = Next (BookStatus (Http.StatusCode responseBook)).
Proof.
  intros Hreq Hrt Hfail. unfold bookStep, Do. by rewrite Hreq, Hrt, Hfail.
Qed.

(** C6.  For every booking request with at least one requested time:
    if every pair of the Cartesian combination of table types (or the
    single round without preference) and requested times has been tried
    and left for the next one, [Reserve] returns [ErrNoTable].  A book
    response with the payment status 402 is among the reasons for which
    a pair is left. *)
Theorem exhausted_pairs_NoTable (E : Env) (db : Store.DB) (w : World)
    (params : Api.ReserveParam) :
  Api.ReservationTimes params <> [] ->
  (exhausted (Reserve E db w params)).*1 = allPairs params ->
  result (Reserve E db w params) = Failed Api.ErrNoTable
  /\ (forall w' bestSlotTime bookToken requestBook responseBook,
        NewRequest E "POST" bookUrl (Some (bookBody bookToken params)) = Some requestBook ->
        RoundTrip E (length (sent w')) (bookRequest (self w') params requestBook)
          = inr responseBook ->
        Http.StatusCode responseBook = 402 ->
        (bookStep E w' params bestSlotTime bookToken).2 = Next (BookStatus 402)).
Proof.
  intros Htimes Hall. split.
  - pose proof (length_allPairs params) as Hlen. rewrite <- Hall, length_fmap in Hlen.
    pose proof (tableTypeRounds_nonempty params) as Hrounds.
    assert (0 < length (Api.ReservationTimes params))%nat as Hts
      by (destruct (Api.ReservationTimes params); [done | simpl; lia]).
    revert Hlen. unfold Reserve.
    destruct (Api.ReservationTimes params) as [|first rest] eqn:Hrt; [done|].
    rewrite <- Hrt in *.
    destruct (sendFind E _ _ params) as [w1 [err|response]]; simpl; [nia|].
    destruct (readFind _ response) as [err|jsonSlotsList]; simpl; [nia|].
    destruct (typesLoop E w1 _ params jsonSlotsList 0 (tableTypeRounds params))
      as [[w2 trail] r] eqn:Hloop.
    pose proof (typesLoop_trail _ _ _ _ _ _ _ _ _ _ Hloop) as Htrail.
    destruct r; simpl; [lia | done].
  - intros w' t token requestBook responseBook Hreq Hrt H402.
    rewrite <- H402. eapply bookStep_failing_status; [done|done|].
    by rewrite H402.
Qed.


(** *** The pipeline at work *)

Definition jsonResponse (code : Z) (body : Json.Value) : Http.Response :=
  {| Http.StatusCode := code; Http.RespHeader := ∅;
     Http.RespBody := Http.Text "" (Some body) |}.

(** The find response for venue 89607 with the given slot list. *)
Definition venueBlock (slots : list Json.Value) : Json.Value :=
  Json.Object [("venue", Json.Object [("id", Json.Object [("resy", Json.Number 89607)])]);
               ("slots", Json.Array slots)].

Definition findResponse (venues : list Json.Value) : Http.Response :=
  jsonResponse 200 (Json.Object [("results", Json.Object [("venues", Json.Array venues)])]).

(** An upstream that answers the find request with [venues], the detail
    request with a book token and the book request with [bookStatus]. *)
Definition upstream (venues : list Json.Value) (bookStatus : Z) : Env :=
  {| ParseRFC1123 := fun _ => None;
     LoadLocation := Some SearchFacts.newYork2025;
     NewRequestOK := fun _ _ => true;
     RoundTrip := fun _ req =>
       if String.eqb (Http.URL req) findUrl then inr (findResponse venues)
       else if String.eqb (Http.URL req) detailUrl then
         inr (jsonResponse 200
                (Json.Object [("book_token", Json.Object [("value", Json.Str "one-time")])]))
       else inr (jsonResponse bookStatus (Json.Object [("reservation_id", Json.Number 1)])) |}.

Definition client : World :=
  {| self := {| APIKey := "key"; Cookies := []; UserAgent := "" |}; sent := []; slept := 0 |}.

(** Venue 89607, party of two, December 1, 2025 at 19:00 in New York. *)
Definition request (tableTypes : list Api.TableType) : Api.ReserveParam :=
  {| Api.VenueID := 89607; Api.ReservationTimes := [SearchFacts.sevenPM];
     Api.PartySize := 2;
     Api.LoginResp := {| Api.AuthToken := "auth"; Api.PaymentMethodID := 7 |};
     Api.TableTypes := tableTypes |}.

Example reserve_books_nearest :
  result (Reserve (upstream [venueBlock [SearchFacts.slotAt "2025-12-01 18:45:00" "Dining Room" "a";
                                         SearchFacts.slotAt "2025-12-01 19:20:00" "Patio" "b"]] 200)
            ∅ client (request []))
  = Booked {| Api.ReservationTime :=
                {| unixNano := 1764632700 * Second; loc := SearchFacts.newYork2025 |} |}.
Proof. vm_compute. reflexivity. Qed.

Example reserve_books_exact :
  result (Reserve (upstream [venueBlock [SearchFacts.slotAt "2025-12-01 18:50:00" "Dining Room" "a";
                                         SearchFacts.slotAt "2025-12-01 19:00:00" "Patio" "b"]] 200)
            ∅ client (request []))
  = Booked {| Api.ReservationTime :=
                {| unixNano := 1764633600 * Second; loc := SearchFacts.newYork2025 |} |}.
Proof. vm_compute. reflexivity. Qed.

Example reserve_too_far :
  result (Reserve (upstream [venueBlock [SearchFacts.slotAt "2025-12-01 19:45:00" "Patio" "a"]] 200)
            ∅ client (request []))
  = Failed Api.ErrNoTable.
Proof. vm_compute. reflexivity. Qed.

(** The book request is answered 402 for the first table type; no slot
    passes the filter of the second. *)
Lemma exhausted_pairs_NoTable_witness :
  result (Reserve (upstream [venueBlock [SearchFacts.slotAt "2025-12-01 19:30:00" "Dining Room" "a"]] 402)
            ∅ client (request ["dining"; "patio"]))
  = Failed Api.ErrNoTable.
Proof.
  refine (proj1 (exhausted_pairs_NoTable
                   (upstream [venueBlock [SearchFacts.slotAt "2025-12-01 19:30:00" "Dining Room" "a"]] 402)
                   ∅ client (request ["dining"; "patio"]) _ _)).
  - discriminate.
  - vm_compute. reflexivity.
Defined.

Example exhausted_by_payment_status :
  exhausted (Reserve (upstream [venueBlock [SearchFacts.slotAt "2025-12-01 19:30:00" "Dining Room" "a"]] 402)
               ∅ client (request ["dining"; "patio"]))
  = [(0, 0, BookStatus 402); (1, 0, NoSlot)].
Proof. vm_compute. reflexivity. Qed.

(** C5, as stated, fails: a find response that lists the venue with an
    empty slot list yields no slot at all, and [Reserve] returns
    [ErrNoTable], not [ErrNoOffer]. *)
Lemma no_slots_is_NoTable :
  readFind 89607 (findResponse [venueBlock []]) = inr []
  /\ result (Reserve (upstream [venueBlock []] 200) ∅ client (request []))
     = Failed Api.ErrNoTable.
Proof. split; vm_compute; reflexivity. Qed.

(** C5, amended.  When the find response (a success status, a JSON
    object with [results.venues]) has an empty venue list, [Reserve]
    fails with [ErrNoOffer].  When it lists venues and the block of
    the requested venue (or, failing that, the first block) has an empty
    slot list, [Reserve] fails with [ErrNoTable]. *)
Theorem no_venues_NoOffer (E : Env) (db : Store.DB) (w : World) (params : Api.ReserveParam)
    (first : Time) (rest : list Time) (w1 : World) (response : Http.Response)
    (raw : string) (top results : Json.Map) (venues : list Json.Value) :
  Api.ReservationTimes params = first :: rest ->
  sendFind E (loadCookies db w params) (dateString (In first (nycLocation E))) params
    = (w1, inr response) ->
  isCodeFail (Http.StatusCode response) = false ->
  Http.RespBody response = Http.Text raw (Some (Json.Object top)) ->
  Json.asMap (Json.lookupKey top "results") = Some results ->
  Json.asArray (Json.lookupKey results "venues") = Some venues ->
  (venues = [] -> result (Reserve E db w params) = Failed Api.ErrNoOffer)
  /\ (forall block,
        venues <> [] ->
        matchVenue (Api.VenueID params) venues = Some block
        \/ (matchVenue (Api.VenueID params) venues = None
            /\ Json.asMap (head venues) = Some block) ->
        Json.asArray (Json.lookupKey block "slots") = Some [] ->
        result (Reserve E db w params) = Failed Api.ErrNoTable).
Proof.
  intros Htimes Hsend Hok Hbody Hresults Hvenues.
  assert (readFind (Api.VenueID params) response
          = slotsOfFindResponse (Api.VenueID params) (Some top)) as Hread
    by (unfold readFind; by rewrite Hbody, Hok).
  split.
  - intros ->. unfold Reserve. rewrite Htimes, Hsend, Hread.
    unfold slotsOfFindResponse. simpl. by rewrite Hresults, Hvenues.
  - intros block Hne Hblock Hslots.
    assert (slotsOfFindResponse (Api.VenueID params) (Some top) = inr []) as Hnone.
    { unfold slotsOfFindResponse. simpl. rewrite Hresults, Hvenues.
      destruct venues as [|v venues']; [done|]. simpl length. simpl Nat.eqb. cbv iota.
      destruct Hblock as [-> | [-> ->]]; by rewrite Hslots. }
    unfold Reserve. rewrite Htimes, Hsend, Hread, Hnone.
    destruct (typesLoop_no_slots E (dateString (In first (nycLocation E))) params []
                (tableTypeRounds params) eq_refl 0 w1) as (trail & Hloop & _).
    by rewrite Hloop.
Qed.

Lemma no_venues_NoOffer_witness :
  result (Reserve (upstream [] 200) ∅ client (request [])) = Failed Api.ErrNoOffer.
Proof.
  refine (proj1 (no_venues_NoOffer (upstream [] 200) ∅ client (request [])
                   SearchFacts.sevenPM [] _ (findResponse []) ""
                   [("results", Json.Object [("venues", Json.Array [])])]
                   [("venues", Json.Array [])] []
                   eq_refl _ eq_refl eq_refl eq_refl eq_refl) eq_refl).
  vm_compute. reflexivity.
Defined.

End ReserveFacts.

(** ** The scheduled queue *)

Module QueueFacts.
Import GoTime Redis Store.

(** *** The order of the sorted set *)

Lemma ltb_trans (a b c : string) :
  String.ltb a b = true -> String.ltb b c = true -> String.ltb a c = true.
Proof.
  unfold String.ltb.
  destruct (String.compare a b) eqn:Hab; try done.
  destruct (String.compare b c) eqn:Hbc; try done.
  intros _ _.
  apply OrderedTypeEx.String_as_OT.cmp_lt in Hab, Hbc.
  pose proof (OrderedTypeEx.String_as_OT.lt_trans _ _ _ Hab Hbc) as Hac.
  apply OrderedTypeEx.String_as_OT.cmp_lt in Hac.
  unfold OrderedTypeEx.String_as_OT.cmp in Hac. by rewrite Hac.
Qed.

Lemma ltb_total (a b : string) :
  a <> b -> String.ltb a b = false -> String.ltb b a = true.
Proof.
  unfold String.ltb. intros Hne.
  rewrite (String.compare_antisym b a).
  destruct (String.compare a b) eqn:Hab; try done.
  by apply String.compare_eq_iff in Hab.
Qed.

Lemma ltb_irrefl (a : string) : String.ltb a a = false.
Proof.
  unfold String.ltb.
  assert (String.compare a a = Eq) as ->; [|done].
  by apply OrderedTypeEx.String_as_OT.cmp_eq.
Qed.

Lemma before_trans (a b c : Z * string) :
  before a b = true -> before b c = true -> before a c = true.
Proof.
  unfold before. intros Hab Hbc.
  apply orb_true_iff in Hab as [Hab|[Hab Hab']%andb_true_iff];
  apply orb_true_iff in Hbc as [Hbc|[Hbc Hbc']%andb_true_iff];
  apply orb_true_iff.
  - left. apply Z.ltb_lt in Hab, Hbc. apply Z.ltb_lt. lia.
  - left. apply Z.ltb_lt in Hab. apply Z.eqb_eq in Hbc. apply Z.ltb_lt. lia.
  - left. apply Z.ltb_lt in Hbc. apply Z.eqb_eq in Hab. apply Z.ltb_lt. lia.
  - right. apply Z.eqb_eq in Hab, Hbc. apply andb_true_iff. split.
    + apply Z.eqb_eq. lia.
    + by eapply ltb_trans.
Qed.

Lemma before_total (a b : Z * string) :
  a.2 <> b.2 -> before a b = false -> before b a = true.
Proof.
  unfold before. intros Hne Hab.
  apply orb_false_iff in Hab as [Hlt Hab]. apply Z.ltb_ge in Hlt.
  apply orb_true_iff.
  destruct (Z.eqb_spec a.1 b.1) as [Heq|Hneq].
  - right. simpl in Hab. apply andb_true_iff. split; [apply Z.eqb_eq; lia|].
    by apply ltb_total.
  - left. apply Z.ltb_lt. lia.
Qed.

Lemma before_fst (a b : Z * string) : before a b = true -> a.1 <= b.1.
Proof.
  unfold before. intros [H|[H _]%andb_true_iff]%orb_true_iff.
  - apply Z.ltb_lt in H. lia.
  - apply Z.eqb_eq in H. lia.
Qed.

Abbreviation Ordered := (StronglySorted (fun a b : Z * string => before a b = true)).

Lemma zremove_elem (member : string) (z : ZSet) (e : Z * string) :
  e ∈ zremove member z <-> e.2 <> member /\ e ∈ z.
Proof. unfold zremove. exact (list_elem_of_filter (fun x : Z * string => x.2 <> member) z e). Qed.

Lemma zremove_Ordered (member : string) (z : ZSet) :
  Ordered z -> Ordered (zremove member z).
Proof.
  unfold zremove. induction 1 as [|e z Hz IH Hall]; [constructor|].
  rewrite filter_cons. case_decide; [|done].
  constructor; [done|].
  apply Forall_forall. intros x [_ Hx]%list_elem_of_filter.
  by eapply Forall_forall in Hall.
Qed.

Lemma zinsert_elem (e : Z * string) (z : ZSet) (x : Z * string) :
  x ∈ zinsert e z <-> x = e \/ x ∈ z.
Proof.
  induction z as [|e' z IH]; simpl.
  - rewrite list_elem_of_singleton. split; [auto|]. intros [?|H]; [done|].
    by apply elem_of_nil in H.
  - destruct (before e e').
    + by rewrite elem_of_cons.
    + rewrite !elem_of_cons, IH. tauto.
Qed.

Lemma zinsert_Ordered (e : Z * string) (z : ZSet) :
  Ordered z -> (forall x, x ∈ z -> x.2 <> e.2) -> Ordered (zinsert e z).
Proof.
  induction 1 as [|e' z Hz IH Hall]; intros Hfresh; simpl.
  - repeat constructor.
  - destruct (before e e') eqn:Hb.
    + constructor; [by constructor|].
      constructor; [done|].
      apply Forall_forall. intros x Hx.
      eapply Forall_forall in Hall; [|done]. by eapply before_trans.
    + constructor.
      * apply IH. intros x Hx. apply Hfresh. by apply list_elem_of_further.
      * apply Forall_forall. intros x [->|Hx]%zinsert_elem.
        -- apply before_total; [|done].
           intros Heq. eapply (Hfresh e'); [apply list_elem_of_here|done].
        -- by eapply Forall_forall in Hall.
Qed.

Lemma zrange_first (z : ZSet) :
  zrange z 0 0 = match z with [] => [] | e :: _ => [e.2] end.
Proof.
  unfold zrange. destruct z as [|e z]; [done|].
  cbn [length]. rewrite Nat2Z.inj_succ.
  replace (0 <? 0) with false by done. cbv zeta.
  rewrite Z.min_l by lia.
  replace (0 <? 0) with false by done.
  replace (Z.succ (Z.of_nat (length z)) <=? 0) with false
    by (symmetry; apply Z.leb_gt; lia).
  simpl. by destruct z.
Qed.

(** *** The store as a queue *)

Lemma append_cancel (p a b : string) : p +:+ a = p +:+ b -> a = b.
Proof. induction p as [|c p IH]; simpl; [done|]. intros [= H]. by apply IH. Qed.

Lemma ReservationKey_inj (a b : string) : ReservationKey a = ReservationKey b -> a = b.
Proof. apply append_cancel. Qed.

Lemma ReservationKey_pending (id : string) :
  id <> "pending" -> ReservationKey id <> PendingSetKey.
Proof.
  intros Hne Heq. apply Hne. apply ReservationKey_inj. exact Heq.
Qed.

(** The pending sorted set of a store; [None] when the key holds a
    string. *)
Definition pending (db : DB) : option ZSet :=
  match db !! PendingSetKey with
  | None => Some []
  | Some (ZSetEntry z) => Some z
  | Some (StringEntry _) => None
  end.

(** A store holds the queue [q] (the scheduled reservations by id):
    the pending set is in order and has the ids of [q], each scored by
    the Unix seconds of its run time, and every record of [q] is stored
    under the key of its id. *)
Record Represents (db : DB) (q : gmap string ScheduledReservation) : Prop := {
  rep_pending :
    exists z, pending db = Some z /\ Ordered z
              /\ forall e, e ∈ z <-> exists r, q !! e.2 = Some r /\ e.1 = Unix (RunTime r);
  rep_records :
    forall id r, q !! id = Some r ->
      ID r = id /\ id <> "pending"
      /\ db !! ReservationKey id = Some (StringEntry (ReservationJSON r))
}.

Lemma Represents_empty (db : DB) :
  db !! PendingSetKey = None -> Represents db ∅.
Proof.
  intros H. split.
  - exists []. unfold pending. rewrite H. split; [done|]. split; [constructor|].
    intros e. split; [intros He; by apply elem_of_nil in He|].
    intros (r & Hr & _). by rewrite lookup_empty in Hr.
  - intros id r Hr. by rewrite lookup_empty in Hr.
Qed.

(** [SaveReservation] puts the record into the queue. *)
Lemma SaveReservation_Represents (db : DB) (q : gmap string ScheduledReservation)
    (res : ScheduledReservation) :
  Represents db q -> ID res <> "pending" ->
  (SaveReservation db res).2 = None
  /\ Represents (SaveReservation db res).1 (<[ID res := res]> q).
Proof.
  intros [(z & Hz & Hord & Hmem) Hrec] Hid.
  pose proof (ReservationKey_pending _ Hid) as Hkey.
  unfold SaveReservation, SET, ZADD.
  rewrite lookup_insert_ne by done.
  set (e := (Unix (RunTime res), ID res)).
  set (db1 := <[ReservationKey (ID res) := StringEntry (ReservationJSON res)]> db).
  assert (exists db2,
            db2 = <[PendingSetKey := ZSetEntry (zinsert e (zremove (ID res) z))]> db1
            /\ match db !! PendingSetKey with
               | Some (ZSetEntry z0) =>
                   (<[PendingSetKey := ZSetEntry (zinsert e (zremove (ID res) z0))]> db1,
                    None (A := Err))
               | Some (StringEntry _) => (db1, Some WrongType)
               | None => (<[PendingSetKey := ZSetEntry [e]]> db1, None)
               end = (db2, None)) as (db2 & Hdb2 & ->).
  { unfold pending in Hz. eexists. split; [reflexivity|].
    destruct (db !! PendingSetKey) as [[v|z0]|]; [done| |]; by injection Hz as <-. }
  simpl. split; [done|]. subst db2. split.
  - exists (zinsert e (zremove (ID res) z)).
    split; [unfold pending; by rewrite lookup_insert_eq|].
    split.
    + apply zinsert_Ordered; [by apply zremove_Ordered|].
      intros x [Hx _]%zremove_elem. done.
    + intros x. rewrite zinsert_elem, zremove_elem, Hmem. split.
      * intros [->|[Hne (r & Hr & Hs)]].
        -- exists res. simpl. by rewrite lookup_insert_eq.
        -- exists r. by rewrite lookup_insert_ne.
      * intros (r & Hr & Hs).
        destruct (decide (x.2 = ID res)) as [Heq|Hne].
        -- left. rewrite Heq, lookup_insert_eq in Hr. injection Hr as <-.
           destruct x as [sc id]. simpl in *. subst e. by rewrite Hs, Heq.
        -- right. rewrite lookup_insert_ne in Hr by done. split; [done|by exists r].
  - intros id r Hr.
    destruct (decide (id = ID res)) as [->|Hne].
    + rewrite lookup_insert_eq in Hr. injection Hr as <-.
      split; [done|]. split; [done|].
      rewrite lookup_insert_ne by done. subst db1. by rewrite lookup_insert_eq.
    + rewrite lookup_insert_ne in Hr by done.
      destruct (Hrec id r Hr) as (H1 & H2 & H3).
      split; [done|]. split; [done|].
      rewrite lookup_insert_ne by (apply not_eq_sym; by apply ReservationKey_pending).
      subst db1. rewrite lookup_insert_ne; [done|].
      intros Heq. apply ReservationKey_inj in Heq. done.
Qed.


(** [GetNextReservation] returns the record at the head of the order. *)
Lemma GetNextReservation_Represents (db : DB) (q : gmap string ScheduledReservation) :
  Represents db q ->
  match GetNextReservation db with
  | inl _ => False
  | inr None => q = ∅
  | inr (Some r) =>
      q !! ID r = Some r
      /\ forall r', q !! ID r' = Some r' ->
           r' = r \/ before (Unix (RunTime r), ID r) (Unix (RunTime r'), ID r') = true
  end.
Proof.
  intros [(z & Hz & Hord & Hmem) Hrec].
  unfold GetNextReservation, ZRANGE. unfold pending in Hz.
  assert (match db !! PendingSetKey with
          | Some (ZSetEntry z0) => inr (zrange z0 0 0)
          | Some (StringEntry _) => inl WrongType
          | None => inr []
          end = inr (B := list string) (A := Err) (zrange z 0 0)) as ->.
  { destruct (db !! PendingSetKey) as [[v|z0]|]; [done| |]; by injection Hz as <-. }
  rewrite zrange_first. destruct z as [|[sc id] z].
  - apply map_empty. intros id. destruct (q !! id) as [r|] eqn:Hr; [|done].
    destruct (Hrec id r Hr) as (Hid & _).
    assert ((Unix (RunTime r), id) ∈ @nil (Z * string)) as Hin
      by (apply Hmem; exists r; by split).
    by apply elem_of_nil in Hin.
  - simpl.
    destruct (proj1 (Hmem (sc, id)) (list_elem_of_here _ _)) as (r & Hr & Hs).
    simpl in Hr, Hs. destruct (Hrec id r Hr) as (Hid & _ & Hdb).
    unfold GetReservation, GET. rewrite Hdb. rewrite Hid. split; [done|].
    intros r' Hr'.
    assert ((Unix (RunTime r'), ID r') ∈ (sc, id) :: z) as Hin
      by (apply Hmem; exists r'; by split).
    apply elem_of_cons in Hin as [Heq|Hin].
    + left. injection Heq as _ Heq. rewrite Heq in Hr'. congruence.
    + right. rewrite <- Hs.
      apply StronglySorted_inv in Hord as [_ Hall].
      by eapply Forall_forall in Hall.
Qed.


(** *** The queue after a sequence of insertions *)

(** The reservations in the queue after the saves [rs], by id: a later
    save under an id replaces the earlier one. *)
Definition queueOf (rs : list ScheduledReservation) : gmap string ScheduledReservation :=
  foldl (fun q r => <[ID r := r]> q) ∅ rs.

Lemma saveAll_Represents (rs : list ScheduledReservation) :
  forall (db : DB) (q : gmap string ScheduledReservation),
    Represents db q ->
    (forall r, r ∈ rs -> ID r <> "pending") ->
    Represents (Main.saveAll db rs) (foldl (fun q r => <[ID r := r]> q) q rs).
Proof.
  induction rs as [|r rs IH]; intros db q Hrep Hids; [done|].
  unfold Main.saveAll. simpl. apply IH.
  - apply SaveReservation_Represents; [done|]. apply Hids. apply list_elem_of_here.
  - intros r' Hr'. apply Hids. by apply list_elem_of_further.
Qed.

Lemma queueOf_snoc (rs : list ScheduledReservation) (r : ScheduledReservation) :
  queueOf (rs ++ [r]) = <[ID r := r]> (queueOf rs).
Proof. unfold queueOf. by rewrite foldl_app. Qed.

Lemma queueOf_elem (rs : list ScheduledReservation) (id : string) (r : ScheduledReservation) :
  queueOf rs !! id = Some r -> r ∈ rs /\ ID r = id.
Proof.
  induction rs as [|x rs IH] using rev_ind.
  - unfold queueOf. simpl. by rewrite lookup_empty.
  - rewrite queueOf_snoc. destruct (decide (ID x = id)) as [<-|Hne].
    + rewrite lookup_insert_eq. intros [= <-]. split; [|done].
      apply elem_of_app. right. apply list_elem_of_here.
    + rewrite lookup_insert_ne by done. intros H. destruct (IH H) as [Hin Hid].
      split; [|done]. apply elem_of_app. by left.
Qed.

Lemma queueOf_NoDup (rs : list ScheduledReservation) (r : ScheduledReservation) :
  NoDup (ID <$> rs) -> r ∈ rs -> queueOf rs !! ID r = Some r.
Proof.
  induction rs as [|x rs IH] using rev_ind; intros Hnd Hr.
  - by apply elem_of_nil in Hr.
  - rewrite queueOf_snoc. rewrite fmap_app in Hnd. simpl in Hnd.
    apply NoDup_app in Hnd as (Hnd & Hfresh & _).
    apply elem_of_app in Hr as [Hr| ->%list_elem_of_singleton].
    + rewrite lookup_insert_ne; [by apply IH|].
      intros Heq. apply (Hfresh (ID r)); [|rewrite Heq; apply list_elem_of_here].
      apply list_elem_of_fmap. by exists r.
    + by rewrite lookup_insert_eq.
Qed.

Definition scheduledAt (id : string) (runNano : Z) : ScheduledReservation :=
  {| ID := id; VenueID := 89607;
     ReservationTime := {| unixNano := 1764633600 * Second; loc := UTC |};
     PartySize := 2; TablePreferences := ["dining"]; AuthToken := "auth";
     RunTime := {| unixNano := runNano; loc := UTC |};
     CreatedAt := {| unixNano := 1764000000 * Second; loc := UTC |} |}.


(** Insert A due at T+10, B at T+5, C at T+20 (seconds): B is next. *)
Example next_of_three :
  let t := 1764322200 in
  let a := scheduledAt "res_a" ((t + 10) * Second) in
  let b := scheduledAt "res_b" ((t + 5) * Second) in
  let c := scheduledAt "res_c" ((t + 20) * Second) in
  GetNextReservation (Main.saveAll ∅ [a; b; c]) = inr (Some b).
Proof. vm_compute. reflexivity. Qed.

(** The record returned after the saves [rs]: it is in the queue and
    comes first in the order of the pending set. *)
Lemma next_least (db0 : DB) (rs : list ScheduledReservation) :
  db0 !! PendingSetKey = None ->
  (forall r, r ∈ rs -> ID r <> "pending") ->
  rs <> [] ->
  exists next,
    GetNextReservation (Main.saveAll db0 rs) = inr (Some next)
    /\ queueOf rs !! ID next = Some next
    /\ (forall r, queueOf rs !! ID r = Some r ->
          Unix (RunTime next) <= Unix (RunTime r)
          /\ (Unix (RunTime next) = Unix (RunTime r) ->
              r = next \/ String.ltb (ID next) (ID r) = true)).
Proof.
  intros Hfresh Hids Hne.
  pose proof (saveAll_Represents rs db0 ∅ (Represents_empty db0 Hfresh) Hids) as Hrep.
  fold (queueOf rs) in Hrep.
  pose proof (GetNextReservation_Represents _ _ Hrep) as Hnext.
  destruct (GetNextReservation (Main.saveAll db0 rs)) as [err|[next|]]; [done| |].
  - destruct Hnext as [Hin Hmin]. exists next.
    split; [done|]. split; [done|].
    intros r Hr. destruct (Hmin r Hr) as [->|Hb]; [split; [lia|auto]|].
    split; [by apply before_fst in Hb|].
    intros Heq. right. unfold before in Hb. simpl in Hb.
    rewrite Heq, Z.ltb_irrefl, Z.eqb_refl in Hb. exact Hb.
  - exfalso. destruct rs as [|x rs _] using rev_ind; [done|].
    rewrite queueOf_snoc in Hnext.
    by apply (insert_non_empty (M := gmap string)) in Hnext.
Qed.

(** When every run time is a whole number of seconds, as the run times
    read from a request are ([parseTimeNYC] reads minutes), the record
    returned is due at the earliest instant. *)
Lemma next_earliest_instant (db0 : DB) (rs : list ScheduledReservation) :
  db0 !! PendingSetKey = None ->
  (forall r, r ∈ rs -> ID r <> "pending") ->
  (forall r, r ∈ rs -> unixNano (RunTime r) mod Second = 0) ->
  NoDup (ID <$> rs) ->
  rs <> [] ->
  exists next,
    GetNextReservation (Main.saveAll db0 rs) = inr (Some next)
    /\ next ∈ rs
    /\ forall r, r ∈ rs -> unixNano (RunTime next) <= unixNano (RunTime r).
Proof.
  intros Hfresh Hids Hwhole Hnd Hne.
  destruct (next_least db0 rs Hfresh Hids Hne) as (next & Hget & Hin & Hleast).
  exists next. split; [done|].
  assert (next ∈ rs) as Hnext by (by apply (queueOf_elem rs (ID next))).
  split; [done|]. intros r Hr.
  destruct (Hleast r (queueOf_NoDup rs r Hnd Hr)) as [Hle _].
  pose proof (Hwhole r Hr) as H1. pose proof (Hwhole next Hnext) as H2.
  unfold Unix, Second in *.
  apply Z.mod_divide in H1, H2; [|lia|lia].
  destruct H1 as [a Ha], H2 as [b Hb]. rewrite Ha, Hb in *.
  rewrite !Z.div_mul in Hle by lia. lia.
Qed.



End QueueFacts.

(** ** The dispatcher *)

Module DispatcherFacts.
Import GoTime Store Main QueueFacts.

(** The queue after the saves [rs] on top of [q]. *)
Abbreviation addAll q rs :=
  (foldl (fun (acc : gmap string ScheduledReservation) r => <[ID r := r]> acc) q rs).

(** The ids of the reservations handed to [Reserve], oldest first. *)
Definition attemptedIDs (d : Dispatcher) : list string :=
  (fun a => ID a.1) <$> attempted d.











(** *** The dispatcher at work *)

Definition idle : Dispatcher :=
  {| db := ∅; logLines := []; waited := 0; attempted := [] |}.

Definition at_ (sec : Z) : Time := {| unixNano := sec * Second; loc := UTC |}.

(** Four rounds: two reservations arrive, the one due is attempted and
    fails while a third one arrives; the third is attempted and booked;
    the second is not due yet; the context is cancelled. *)
Definition fourRounds : list Tick :=
  [ {| cancelled := false;
       saved := [scheduledAt "res_a" (1764322205 * Second);
                 scheduledAt "res_b" (1764322700 * Second)];
       cancelledInWait := false; now := at_ 1764322207;
       savedMeanwhile := [scheduledAt "res_c" (1764322206 * Second)];
       reserveErr := Some "no tables available" |};
    {| cancelled := false; saved := []; cancelledInWait := false;
       now := at_ 1764322208; savedMeanwhile := []; reserveErr := None |};
    {| cancelled := false; saved := []; cancelledInWait := false;
       now := at_ 1764322209; savedMeanwhile := []; reserveErr := None |};
    {| cancelled := true; saved := []; cancelledInWait := false;
       now := at_ 1764322239; savedMeanwhile := []; reserveErr := None |} ].

Example fourRounds_attempts :
  let d := run fourRounds idle in
  (attemptedIDs d, waited d, CountPendingReservations (db d),
   GetNextReservation (db d))
  = (["res_a"; "res_c"], 30 * Second, inr 1,
     inr (Some (scheduledAt "res_b" (1764322700 * Second)))).
Proof. vm_compute. reflexivity. Qed.


End DispatcherFacts.
